(** * PaprWork: the memory proxy route and the image artifact

    A shallow embedding of [src/app/api/memory/route.ts] (the four handlers
    POST, GET, DELETE, PUT and [getPaprClient]) and of the copy-to-clipboard
    action of [imageArtifact], followed by the properties the specification
    states about them.

    The handlers are [async] functions that talk to three collaborators:
    the auth provider, the process environment and the memory SDK. They are
    embedded in a writer/exception monad [M]: a computation yields the list
    of observable events it performed, in order, and either a value or the
    exception it threw. The collaborators are the fields of a [world]. *)

From Stdlib Require Import ZArith String Ascii List.
From stdpp Require Import gmap strings list fin_maps pretty.

Local Open Scope string_scope.
Local Open Scope Z_scope.

(** ** JavaScript values, as far as the route touches them *)

Module Js.

(** A JavaScript value. [JSON.parse] yields values without [VUndefined];
    object literals of the handlers may hold it. Objects are finite maps
    from property names to values. An array also carries its named own
    properties, empty after [JSON.parse]; the handlers may add one by
    assignment. Numbers are carried through unchanged and only tested for
    zero, so they are kept as integers. *)
#[warnings="-register-all"]
Inductive value : Type :=
  | VUndefined
  | VNull
  | VBool (b : bool)
  | VNum (n : Z)
  | VStr (s : string)
  | VArr (items : list value) (props : gmap string value)
  | VObj (props : gmap string value).

(** A thrown JavaScript error: its constructor name and its message. *)
Record exn : Type := Exn { exn_name : string; exn_message : string }.

Definition Error (msg : string) : exn := Exn "Error" msg.
Definition TypeError (msg : string) : exn := Exn "TypeError" msg.

(** The completion of an evaluation: a value, or an exception. For an
    awaited promise: fulfilled, or rejected. *)
Inductive completion (A : Type) : Type :=
  | Normal (a : A)
  | Throw (e : exn).
Arguments Normal {A} a.
Arguments Throw {A} e.

(** [ToBoolean]: what [!v], [v || w] and [if (v)] look at. *)
Definition truthy (v : value) : bool :=
  match v with
  | VUndefined | VNull => false
  | VBool b => b
  | VNum n => negb (n =? 0)
  | VStr s => negb (String.eqb s "")
  | VArr _ _ | VObj _ => true
  end.

(** [a || b] *)
Definition or_else (a b : value) : value := if truthy a then a else b.

(** A destructuring default, [{ k = d }]: used when the property is
    [undefined], and only then. *)
Definition default_to (d v : value) : value :=
  match v with VUndefined => d | _ => v end.

(** An object literal with distinct keys. *)
Definition obj (fields : list (string * value)) : value :=
  VObj (list_to_map fields).

(** An array literal, or the array [JSON.parse] returns. *)
Definition arr (items : list value) : value := VArr items ∅.

(** A JavaScript string is a sequence of UTF-16 code units. It is held
    here as the bytes of its UTF-8 encoding (generalised to lone
    surrogates), which keeps equality, emptiness, concatenation, prefixes
    and the search of a substring as they are; its [length] and its
    elements are read off the encoding. *)
Definition byte_code (c : ascii) : Z := Z.of_N (N_of_ascii c).

(** A continuation byte, [10xxxxxx]. *)
Definition is_continuation (c : ascii) : bool :=
  (128 <=? byte_code c) && (byte_code c <? 192).

(** The code units a byte opens: one for the lead byte of a sequence of one
    to three bytes, two (a surrogate pair) for the lead byte of a sequence
    of four, none for a continuation byte. *)
Definition utf16_units (c : ascii) : nat :=
  if is_continuation c then 0%nat
  else if byte_code c <? 240 then 1%nat
  else 2%nat.

(** [s.length] *)
Fixpoint utf16_length (s : string) : nat :=
  match s with
  | EmptyString => 0%nat
  | String c s' => (utf16_units c + utf16_length s')%nat
  end.

(** The byte sequences of a string, one per code point: the continuation
    bytes not yet claimed by a lead byte, and the sequences found. *)
Fixpoint code_points (s : string) : string * list string :=
  match s with
  | EmptyString => (EmptyString, [])
  | String c s' =>
      let '(pending, found) := code_points s' in
      if is_continuation c then (String c pending, found)
      else (EmptyString, String c pending :: found)
  end.

(** The six payload bits of the [i]-th byte of a sequence. *)
Definition payload (cp : string) (i : nat) : Z :=
  match String.get i cp with
  | Some c => Z.land (byte_code c) 63
  | None => 0
  end.

(** One code unit above [0x7FF] as a string: three bytes. *)
Definition unit_string (u : Z) : string :=
  let byte (n : Z) := ascii_of_N (Z.to_N n) in
  String (byte (Z.lor 224 (Z.shiftr u 12)))
    (String (byte (Z.lor 128 (Z.land (Z.shiftr u 6) 63)))
       (String (byte (Z.lor 128 (Z.land u 63))) EmptyString)).

(** The code units of one code point, each as a string of its own: the
    code point itself, or its two surrogates when it lies above [0xFFFF]. *)
Definition code_units (cp : string) : list string :=
  match cp with
  | EmptyString => []
  | String lead _ =>
      if byte_code lead <? 240 then [cp]
      else
        let v :=
          Z.lor (Z.shiftl (Z.land (byte_code lead) 7) 18)
            (Z.lor (Z.shiftl (payload cp 1) 12)
               (Z.lor (Z.shiftl (payload cp 2) 6) (payload cp 3)))
          - 65536 in
        [ unit_string (55296 + Z.shiftr v 10);
          unit_string (56320 + Z.land v 1023) ]
  end.

(** [v.k] and [v[k]] for a property name [k] that is not an array index.
    Reading a property of [undefined] or [null] throws; a primitive has no
    own named property but [length] on a string. *)
Definition get_prop (v : value) (k : string) : completion value :=
  match v with
  | VUndefined | VNull =>
      Throw (TypeError ("Cannot read properties of undefined or null (reading '" +:+ k +:+ "')"))
  | VBool _ | VNum _ => Normal VUndefined
  | VStr s =>
      Normal (if String.eqb k "length" then VNum (Z.of_nat (utf16_length s))
              else VUndefined)
  | VArr items props =>
      Normal (if String.eqb k "length" then VNum (Z.of_nat (length items))
              else default VUndefined (props !! k))
  | VObj props => Normal (default VUndefined (props !! k))
  end.

(** [o.k = v] in strict mode (the route is an ES module): the updated
    object. Creating a property on a primitive throws. *)
Definition set_prop (o : value) (k : string) (v : value) : completion value :=
  match o with
  | VUndefined | VNull =>
      Throw (TypeError ("Cannot set properties of undefined or null (setting '" +:+ k +:+ "')"))
  | VBool _ | VNum _ | VStr _ =>
      Throw (TypeError ("Cannot create property '" +:+ k +:+ "' on a primitive"))
  | VArr items props => Normal (VArr items (<[k:=v]> props))
  | VObj props => Normal (VObj (<[k:=v]> props))
  end.

(** The index-keyed properties of an array-like: ["0"], ["1"], ... *)
Definition indexed (items : list value) : gmap string value :=
  list_to_map (imap (λ i v, (pretty i, v)) items).

(** The elements of a string: its code units, each a string. *)
Definition chars (s : string) : list value :=
  VStr <$> concat (code_units <$> snd (code_points s)).

(** [{...v}]: the own enumerable properties of [v]. Spreading [undefined],
    [null], a boolean or a number adds nothing. *)
Definition spread (v : value) : gmap string value :=
  match v with
  | VObj props => props
  | VArr items props => props ∪ indexed items
  | VStr s => indexed (chars s)
  | VUndefined | VNull | VBool _ | VNum _ => ∅
  end.

(** [s.replace(pat, '')] for a string pattern: the first occurrence of
    [pat] is removed. *)
Fixpoint remove_first (pat s : string) : string :=
  if String.prefix pat s then String.substring (String.length pat) (String.length s) s
  else match s with
       | EmptyString => EmptyString
       | String c s' => String c (remove_first pat s')
       end.

(** [!s] for a string that may be [undefined] or [null]. *)
Definition absent (s : option string) : bool :=
  match s with
  | None => true
  | Some s => String.eqb s ""
  end.

End Js.
Export Js.

(** ** [src/app/api/memory/route.ts] *)

Module MemoryRoute.

(** *** Collaborators *)

(** The session the auth provider returns: [Session | null], with an
    optional [user] that has an optional [id]. *)
Record User : Type := { user_id : option string }.
Record Session : Type := { session_user : option User }.

(** A constructed SDK client, [new Papr({ xAPIKey, baseURL })]. *)
Record Papr : Type := { xAPIKey : string; baseURL : string }.

(** The four SDK methods the route invokes, with their arguments. *)
Inductive sdk_call : Type :=
  | MemoryAdd (params : value)
  | MemorySearch (params options : value)
  | MemoryDelete (memoryId : string)
  | MemoryUpdate (memory_id params : value).

(** What a handler does that can be seen from outside, in order. *)
Inductive event : Type :=
  | EvNewPapr (client : Papr)
  | EvSdk (client : Papr) (call : sdk_call)
  | EvConsoleLog (label : string) (payload : value)
  | EvConsoleError (label : string) (error : exn).

(** Everything a handler reads from outside its request. *)
Record world : Type := {
  (** [await auth()] *)
  auth : completion (option Session);
  (** [process.env] *)
  env : gmap string string;
  (** [new Date().toISOString()] *)
  now : string;
  (** the remote service behind [client.memory]: the awaited result of a call *)
  sdk : Papr → sdk_call → completion value;
}.

(** The request: the query parameters of [request.url], in order, and the
    awaited result of [request.json()], which rejects when the body is not
    parseable as JSON. *)
Record Request : Type := {
  searchParams : list (string * string);
  json : completion value;
}.

(** [NextResponse.json(body, { status })] *)
Record Response : Type := { status : Z; body : value }.

Definition NextResponse_json (body : value) (status : Z) : Response :=
  {| status := status; body := body |}.

(** [URLSearchParams.get]: the first value of the name, [null] if none. *)
Fixpoint searchParams_get (ps : list (string * string)) (name : string) : option string :=
  match ps with
  | [] => None
  | (k, v) :: ps' => if String.eqb k name then Some v else searchParams_get ps' name
  end.

(** *** The monad of the handlers *)

Definition M (A : Type) : Type := list event * completion A.

Definition ret {A} (a : A) : M A := ([], Normal a).

Definition bind {A B} (m : M A) (f : A → M B) : M B :=
  match m with
  | (t, Normal a) => let '(t', r) := f a in ((t ++ t')%list, r)
  | (t, Throw e) => (t, Throw e)
  end.

Definition throw {A} (e : exn) : M A := ([], Throw e).

Definition emit (ev : event) : M unit := ([ev], Normal tt).

(** A pure evaluation that may throw, or an awaited collaborator. *)
Definition lift {A} (c : completion A) : M A := ([], c).

(** [try { body } catch (error) { handler }] *)
Definition try_catch {A} (body : M A) (handler : exn → M A) : M A :=
  match body with
  | (t, Normal a) => (t, Normal a)
  | (t, Throw e) => let '(t', r) := handler e in ((t ++ t')%list, r)
  end.

Definition trace {A} (m : M A) : list event := fst m.
Definition result {A} (m : M A) : completion A := snd m.

Declare Scope js_scope.
Delimit Scope js_scope with js.
Notation "'let*' x := e 'in' k" := (bind e (λ x, k))
  (at level 10, x name, e at level 100, k at level 200) : js_scope.
Notation "e ;;; k" := (bind e (λ _, k))
  (at level 100, k at level 200, right associativity) : js_scope.
Local Open Scope js_scope.

(** *** The client *)

(** [client.memory.<method>(...)], awaited. *)
Definition memory (client : Papr) (w : world) (call : sdk_call) : M value :=
  emit (EvSdk client call);;; lift (sdk w client call).

(** [getPaprClient] *)
Definition getPaprClient (w : world) : M Papr :=
  let apiKey := env w !! "PAPR_MEMORY_API_KEY" in
  if absent apiKey then throw (Error "PAPR_MEMORY_API_KEY is not defined")
  else
    let baseURL :=
      let u := env w !! "PAPR_MEMORY_API_URL" in
      if absent u then "https://memory.papr.ai" else default "" u in
    let secureBaseURL :=
      if String.prefix "https://" baseURL then baseURL
      else "https://" +:+ remove_first "http://" baseURL in
    let client := {| xAPIKey := default "" apiKey; baseURL := secureBaseURL |} in
    emit (EvNewPapr client);;; ret client.

(** [!session || !session.user || !session.user.id] is false exactly when
    this is [Some id]. *)
Definition session_user_id (session : option Session) : option string :=
  match session with
  | Some {| session_user := Some {| user_id := Some id |} |} =>
      if String.eqb id "" then None else Some id
  | _ => None
  end.

Definition error_body (message : string) : value := obj [("error", VStr message)].
Definition success_body (data : value) : value :=
  obj [("success", VBool true); ("data", data)].

Definition Unauthorized : Response := NextResponse_json (error_body "Unauthorized") 401.

(** *** Add a memory *)

Definition POST (w : world) (request : Request) : M Response :=
  try_catch
    (let* session := lift (auth w) in
     match session_user_id session with
     | None => ret Unauthorized
     | Some uid =>
       (* const { content, type = 'text', metadata = {} } = await request.json() *)
       let* body := lift (json request) in
       let* content := lift (get_prop body "content") in
       let* type := lift (get_prop body "type") in
       let type := default_to (VStr "text") type in
       let* metadata := lift (get_prop body "metadata") in
       let metadata := default_to (obj []) metadata in
       if negb (truthy content) then
         ret (NextResponse_json (error_body "Content is required") 400)
       else
         let* client := getPaprClient w in
         (* if (!metadata.customMetadata) { metadata.customMetadata = {}; } *)
         let* customMetadata := lift (get_prop metadata "customMetadata") in
         let* metadata :=
           if negb (truthy customMetadata)
           then lift (set_prop metadata "customMetadata" (obj []))
           else ret metadata in
         (* const memoryMetadata: MemoryMetadata = { ... } *)
         let* sourceType := lift (get_prop metadata "sourceType") in
         let* createdAt := lift (get_prop metadata "createdAt") in
         let* sourceUrl := lift (get_prop metadata "sourceUrl") in
         let* conversationId := lift (get_prop metadata "conversationId") in
         let* topics := lift (get_prop metadata "topics") in
         let* emoji_tags := lift (get_prop metadata "emoji tags") in
         let* hierarchical_structures := lift (get_prop metadata "hierarchical_structures") in
         let* workspace_id := lift (get_prop metadata "workspace_id") in
         let* customMetadata := lift (get_prop metadata "customMetadata") in
         let memoryMetadata :=
           obj [ ("sourceType", or_else sourceType (VStr "PaprChat"));
                 ("user_id", VStr uid);
                 ("external_user_id", VStr uid);
                 ("createdAt", or_else createdAt (VStr (now w)));
                 ("sourceUrl", sourceUrl);
                 ("conversationId", conversationId);
                 ("topics", or_else topics (arr []));
                 ("emoji tags", or_else emoji_tags (arr []));
                 ("hierarchical_structures", hierarchical_structures);
                 ("workspace_id", workspace_id);
                 ("customMetadata",
                   VObj (<["app_user_id" := VStr uid]>
                        (<["api_source" := VStr "memory_route"]>
                        (spread customMetadata)))) ] in
         let memoryParams :=
           obj [ ("content", content); ("type", type); ("metadata", memoryMetadata) ] in
         let* contentLength := lift (get_prop content "length") in
         let* log_sourceType := lift (get_prop memoryMetadata "sourceType") in
         let* log_createdAt := lift (get_prop memoryMetadata "createdAt") in
         let* log_topics := lift (get_prop memoryMetadata "topics") in
         let* log_hierarchical := lift (get_prop memoryMetadata "hierarchical_structures") in
         let* log_custom := lift (get_prop memoryMetadata "customMetadata") in
         emit (EvConsoleLog "[Memory API] Adding memory:"
                 (obj [ ("type", type);
                        ("contentLength", contentLength);
                        ("metadata",
                          obj [ ("sourceType", log_sourceType);
                                ("createdAt", log_createdAt);
                                ("topics", log_topics);
                                ("hierarchical_structures", log_hierarchical);
                                ("customMetadata", log_custom) ]) ]));;;
         let* response := memory client w (MemoryAdd memoryParams) in
         let* data := lift (get_prop response "data") in
         ret (NextResponse_json (success_body data) 200)
     end)
    (λ error,
       emit (EvConsoleError "Error adding memory:" error);;;
       ret (NextResponse_json (error_body "Failed to add memory") 500)).

(** *** Search memories *)

Definition GET (w : world) (request : Request) : M Response :=
  try_catch
    (let* session := lift (auth w) in
     match session_user_id session with
     | None => ret Unauthorized
     | Some uid =>
       let query := searchParams_get (searchParams request) "query" in
       let maxMemories :=
         let m := searchParams_get (searchParams request) "max_memories" in
         if absent m then "25" else default "" m in
       if absent query then
         ret (NextResponse_json (error_body "Query parameter is required") 400)
       else
         let* client := getPaprClient w in
         let searchParams :=
           obj [ ("query", VStr (default "" query)); ("user_id", VStr uid) ] in
         let* response :=
           memory client w
             (MemorySearch searchParams
                (obj [ ("query", obj [ ("max_memories", VNum 25) ]) ])) in
         let* data := lift (get_prop response "data") in
         ret (NextResponse_json (success_body data) 200)
     end)
    (λ error,
       emit (EvConsoleError "Error searching memories:" error);;;
       ret (NextResponse_json (error_body "Failed to search memories") 500)).

(** *** Delete a memory *)

Definition DELETE (w : world) (request : Request) : M Response :=
  try_catch
    (let* session := lift (auth w) in
     match session_user_id session with
     | None => ret Unauthorized
     | Some _ =>
       let memoryId := searchParams_get (searchParams request) "id" in
       if absent memoryId then
         ret (NextResponse_json (error_body "Memory ID is required") 400)
       else
         let* client := getPaprClient w in
         let* response := memory client w (MemoryDelete (default "" memoryId)) in
         ret (NextResponse_json (success_body response) 200)
     end)
    (λ error,
       emit (EvConsoleError "Error deleting memory:" error);;;
       ret (NextResponse_json (error_body "Failed to delete memory") 500)).

(** *** Update a memory *)

Definition PUT (w : world) (request : Request) : M Response :=
  try_catch
    (let* session := lift (auth w) in
     match session_user_id session with
     | None => ret Unauthorized
     | Some _ =>
       (* const { memory_id, content, metadata, type } = await request.json() *)
       let* body := lift (json request) in
       let* memory_id := lift (get_prop body "memory_id") in
       let* content := lift (get_prop body "content") in
       let* metadata := lift (get_prop body "metadata") in
       let* type := lift (get_prop body "type") in
       if negb (truthy memory_id) then
         ret (NextResponse_json (error_body "Memory ID is required") 400)
       else
         let* client := getPaprClient w in
         let* response :=
           memory client w
             (MemoryUpdate memory_id
                (obj [ ("content", content); ("metadata", metadata); ("type", type) ])) in
         ret (NextResponse_json (success_body response) 200)
     end)
    (λ error,
       emit (EvConsoleError "Error updating memory:" error);;;
       ret (NextResponse_json (error_body "Failed to update memory") 500)).

(** *** The four operations *)

Inductive operation : Type := Create | Search | Delete | Update.

Definition handler (op : operation) : world → Request → M Response :=
  match op with
  | Create => POST
  | Search => GET
  | Delete => DELETE
  | Update => PUT
  end.

(** The label each handler's [catch] logs under, and the message it
    answers with. *)
Definition catch_label (op : operation) : string :=
  match op with
  | Create => "Error adding memory:"
  | Search => "Error searching memories:"
  | Delete => "Error deleting memory:"
  | Update => "Error updating memory:"
  end.

Definition generic_message (op : operation) : string :=
  match op with
  | Create => "Failed to add memory"
  | Search => "Failed to search memories"
  | Delete => "Failed to delete memory"
  | Update => "Failed to update memory"
  end.

(** The events that reach the remote service, or prepare to. *)
Definition is_remote (ev : event) : bool :=
  match ev with
  | EvNewPapr _ | EvSdk _ _ => true
  | EvConsoleLog _ _ | EvConsoleError _ _ => false
  end.

Definition sdk_calls (t : list event) : list sdk_call :=
  omap (λ ev, match ev with EvSdk _ c => Some c | _ => None end) t.

End MemoryRoute.
Export MemoryRoute.

(** ** The copy action of [imageArtifact] ([src/lib/types.ts]) *)

Module ImageArtifact.

(** What the browser decides: whether an image source loads (and then its
    size), whether a canvas has a 2d context, and the blob [canvas.toBlob]
    hands to its callback, [null] when the canvas cannot be encoded. *)
Record browser : Type := {
  load_image : string → option (nat * nat);
  has_2d_context : bool;
  encode_canvas : nat → nat → string → option string;
}.

(** The calls the action makes, in the order it makes them. *)
Inductive effect : Type :=
  | NewImage
  | SetSrc (src : string)
  | SetOnload
  | CreateCanvas
  | SetCanvasWidth (width : nat)
  | SetCanvasHeight (height : nat)
  | GetContext2d
  | DrawImage
  | ToBlob (type : string)
  | ClipboardWrite (type : string) (blob : string)
  | ToastSuccess (message : string).

(** JavaScript runs one task to completion before the next starts. The
    click is a task; so are the two callbacks the browser invokes later:
    the load of the image whose [src] was set (it fires [onload], if the
    image loads), and the delivery of the blob to the callback of
    [toBlob]. *)
Inductive task : Type :=
  | Click (content : string)
  | ImageLoad (src : string)
  | BlobCallback (blob : option string).

(** One task: the effects it performs and the tasks it leaves for later. *)
Definition run_task (b : browser) (t : task) : list effect * list task :=
  match t with
  | Click content =>
      (* onClick: ({ content }) => { ... } *)
      let src := "data:image/png;base64," +:+ content in
      ([ NewImage; SetSrc src; SetOnload;
         ToastSuccess "Copied image to clipboard!" ],
       [ ImageLoad src ])
  | ImageLoad src =>
      match load_image b src with
      | None => ([], [])
      | Some (width, height) =>
          (* img.onload = () => { ... } *)
          ([ CreateCanvas; SetCanvasWidth width; SetCanvasHeight height; GetContext2d ]
             ++ (if has_2d_context b then [ DrawImage ] else [])
             ++ [ ToBlob "image/png" ],
           [ BlobCallback (encode_canvas b width height "image/png") ])%list
      end
  | BlobCallback blob =>
      (* (blob) => { if (blob) { navigator.clipboard.write([...]) } } *)
      match blob with
      | Some blob => ([ ClipboardWrite "image/png" blob ], [])
      | None => ([], [])
      end
  end.

(** The event loop: tasks run in the order they were queued. *)
Fixpoint run (fuel : nat) (b : browser) (queue : list task) : list effect * list task :=
  match fuel, queue with
  | S fuel, t :: queue =>
      let '(effects, later) := run_task b t in
      let '(rest, pending) := run fuel b (queue ++ later)%list in
      ((effects ++ rest)%list, pending)
  | _, _ => ([], queue)
  end.

Definition is_clipboard_write (e : effect) : bool :=
  match e with ClipboardWrite _ _ => true | _ => false end.

Definition is_toast (e : effect) : bool :=
  match e with ToastSuccess _ => true | _ => false end.

End ImageArtifact.

(** ** The stream handler and the editor wrapper of [imageArtifact] *)

Module ImageArtifactUI.

(** A part of the data stream, [{ type, content }]. *)
Record StreamPart : Type := { part_type : string; part_content : value }.

(** [onStreamPart({ streamPart, setArtifact })], with [setArtifact(updater)]
    applied to the artifact the host holds: the artifact it holds next. *)
Definition onStreamPart (streamPart : StreamPart) (draftArtifact : gmap string value)
    : gmap string value :=
  if String.eqb (part_type streamPart) "image-delta" then
    (* { ...draftArtifact, content, isVisible: true, status: 'streaming' } *)
    <["status" := VStr "streaming"]>
      (<["isVisible" := VBool true]>
         (<["content" := part_content streamPart]> draftArtifact))
  else draftArtifact.

(** [ImageEditorWrapper(props)]: the props it renders [ImageEditor] with,
    [{ ...props, content: safeContent }]. *)
Definition ImageEditorWrapper (props : gmap string value) : gmap string value :=
  let safeContent := or_else (default VUndefined (props !! "content")) (VStr "") in
  <["content" := safeContent]> props.

End ImageArtifactUI.

(** ** Vocabulary of the properties *)

Local Open Scope js_scope.

(** The caller the auth provider vouches for: the id the guard of every
    handler lets through. *)
Definition caller (w : world) : option string :=
  match auth w with
  | Normal session => session_user_id session
  | Throw _ => None
  end.

(** The session is absent, has no user, or the user has no id. *)
Definition lacks_user_id (session : option Session) : bool :=
  match session with
  | None => true
  | Some s =>
      match session_user s with
      | None => true
      | Some u => absent (user_id u)
      end
  end.

(** [typeof v === 'object' && v !== null] *)
Definition is_object (v : value) : bool :=
  match v with
  | VObj _ | VArr _ _ => true
  | _ => false
  end.

(** The request of an authenticated caller gets past the handler's check
    of its required field. *)
Definition validated (op : operation) (w : world) (request : Request) : bool :=
  match caller w with
  | None => false
  | Some _ =>
      match op with
      | Create =>
          match json request with
          | Normal body =>
              match get_prop body "content" with
              | Normal content => truthy content
              | Throw _ => false
              end
          | Throw _ => false
          end
      | Search => negb (absent (searchParams_get (searchParams request) "query"))
      | Delete => negb (absent (searchParams_get (searchParams request) "id"))
      | Update =>
          match json request with
          | Normal body =>
              match get_prop body "memory_id" with
              | Normal memory_id => truthy memory_id
              | Throw _ => false
              end
          | Throw _ => false
          end
      end
  end.

(** The answer of an operation's [catch] block, and the block itself. *)
Definition failure (op : operation) : Response :=
  NextResponse_json (error_body (generic_message op)) 500.

Definition caught (op : operation) (error : exn) : M Response :=
  emit (EvConsoleError (catch_label op) error);;; ret (failure op).

(** What a handler does with the awaited result of its SDK call. *)
Definition settle (op : operation) (c : completion value) : M Response :=
  try_catch
    (let* response := lift c in
     let* data :=
       match op with
       | Create | Search => lift (get_prop response "data")
       | Delete | Update => ret response
       end in
     ret (NextResponse_json (success_body data) 200))
    (caught op).

(** [m], after the events [t] have happened. *)
Definition after {A} (t : list event) (m : M A) : M A :=
  ((t ++ trace m)%list, result m).

(** The handler answers without any SDK call, with a status other than
    200, and without constructing a client when no key is configured. *)
Definition answers_alone (op : operation) (w : world) (request : Request) : Prop :=
  ∃ t response,
    handler op w request = (t, Normal response) ∧
    sdk_calls t = [] ∧ status response ≠ 200 ∧
    (absent (env w !! "PAPR_MEMORY_API_KEY") = true →
     Forall (λ ev, is_remote ev = false) t).

(** The handler makes exactly one SDK call and settles its result. *)
Definition calls_once (op : operation) (w : world) (request : Request) : Prop :=
  absent (env w !! "PAPR_MEMORY_API_KEY") = false ∧
  ∃ pre client call,
    handler op w request =
      after (pre ++ [EvSdk client call]) (settle op (sdk w client call)) ∧
    sdk_calls pre = [].

(** The first binding of a key in the fields of an object literal. *)
Fixpoint assoc (k : string) (fields : list (string * value)) : option value :=
  match fields with
  | [] => None
  | (k', v) :: fields' => if String.eqb k' k then Some v else assoc k fields'
  end.

(** The query parameters but [max_memories]. *)
Definition without_max_memories (ps : list (string * string)) : list (string * string) :=
  List.filter (λ p, negb (String.eqb (fst p) "max_memories")) ps.

(** ** Sample worlds and requests *)

Module Sample.

Definition alice : option Session :=
  Some {| session_user := Some {| user_id := Some "user-1" |} |}.

Definition stored : value := obj [("data", obj [("memory_id", VStr "m-42")])].

(** A configured deployment whose memory service answers. *)
Definition world_ok : world :=
  {| auth := Normal alice;
     env := {[ "PAPR_MEMORY_API_KEY" := "secret" ]};
     now := "2025-06-01T12:00:00.000Z";
     sdk := λ _ _, Normal stored |}.

(** The same, with the memory service refusing connections. *)
Definition refused : exn := Error "connect ECONNREFUSED 10.0.0.7:443".

Definition world_down : world :=
  {| auth := Normal alice;
     env := {[ "PAPR_MEMORY_API_KEY" := "secret" ]};
     now := "2025-06-01T12:00:00.000Z";
     sdk := λ _ _, Throw refused |}.

(** A deployment without [PAPR_MEMORY_API_KEY]. *)
Definition world_no_key : world :=
  {| auth := Normal alice;
     env := ∅;
     now := "2025-06-01T12:00:00.000Z";
     sdk := λ _ _, Normal stored |}.

(** Nobody is signed in. *)
Definition world_anonymous : world :=
  {| auth := Normal None;
     env := {[ "PAPR_MEMORY_API_KEY" := "secret" ]};
     now := "2025-06-01T12:00:00.000Z";
     sdk := λ _ _, Normal stored |}.

(** A Create whose metadata tries to pass for somebody else. *)
Definition spoofed_metadata : value :=
  obj [ ("user_id", VStr "mallory");
        ("external_user_id", VStr "mallory");
        ("topics", arr [VStr "a"; VStr "b"]);
        ("customMetadata", obj [("api_source", VStr "spoofed")]) ].

Definition create_body : value :=
  obj [ ("content", VStr "hello"); ("metadata", spoofed_metadata) ].

Definition request_create : Request :=
  {| searchParams := []; json := Normal create_body |}.

Definition request_empty_content : Request :=
  {| searchParams := []; json := Normal (obj [("content", VStr "")]) |}.

Definition request_search : Request :=
  {| searchParams := [("query", "cats"); ("max_memories", "3")];
     json := Throw (Exn "SyntaxError" "Unexpected end of JSON input") |}.

Definition request_search_100 : Request :=
  {| searchParams := [("max_memories", "100"); ("query", "cats")];
     json := Throw (Exn "SyntaxError" "Unexpected end of JSON input") |}.

Definition request_delete : Request :=
  {| searchParams := [("id", "m-42")];
     json := Throw (Exn "SyntaxError" "Unexpected end of JSON input") |}.

Definition update_body_without_id : value := obj [("content", VStr "edited")].

(** No [id] parameter, and a body without [memory_id]. *)
Definition request_without_id : Request :=
  {| searchParams := []; json := Normal update_body_without_id |}.

Definition not_json : exn :=
  Exn "SyntaxError" "Unexpected token h in JSON at position 1".

Definition request_unparseable : Request :=
  {| searchParams := []; json := Throw not_json |}.

(** A browser in which nothing of the copy can succeed. *)
Definition broken_browser : ImageArtifact.browser :=
  {| ImageArtifact.load_image := λ _, None;
     ImageArtifact.has_2d_context := false;
     ImageArtifact.encode_canvas := λ _ _ _, None |}.

End Sample.

(** ** Further vocabulary *)

(** The host hands the parts of a stream to [onStreamPart] one by one. *)
Definition stream (parts : list ImageArtifactUI.StreamPart) (artifact : gmap string value)
    : gmap string value :=
  fold_left (λ a part, ImageArtifactUI.onStreamPart part a) parts artifact.

Definition is_image_delta (part : ImageArtifactUI.StreamPart) : bool :=
  String.eqb (ImageArtifactUI.part_type part) "image-delta".

(** The names of the properties POST writes into the metadata it passes. *)
Definition metadata_fields : list string :=
  [ "sourceType"; "user_id"; "external_user_id"; "createdAt"; "sourceUrl";
    "conversationId"; "topics"; "emoji tags"; "hierarchical_structures";
    "workspace_id"; "customMetadata" ].

Definition is_console (ev : event) : bool := negb (is_remote ev).

Module MoreSamples.

(** An Update whose metadata names somebody else. *)
Definition update_body : value :=
  obj [ ("memory_id", VStr "m-42");
        ("content", VStr "edited");
        ("metadata", obj [("user_id", VStr "mallory")]) ].

Definition request_update : Request :=
  {| searchParams := []; json := Normal update_body |}.

(** A Create whose metadata is a string. *)
Definition request_create_text_metadata : Request :=
  {| searchParams := [];
     json := Normal (obj [("content", VStr "hello"); ("metadata", VStr "notes")]) |}.

(** The auth provider is down. *)
Definition auth_down : exn := Error "adapter unavailable".

Definition world_auth_down : world :=
  {| auth := Throw auth_down;
     env := {[ "PAPR_MEMORY_API_KEY" := "secret" ]};
     now := "2025-06-01T12:00:00.000Z";
     sdk := λ _ _, Normal Sample.stored |}.

(** A deployment that names its service over plain http. *)
Definition world_http : world :=
  {| auth := Normal Sample.alice;
     env := {[ "PAPR_MEMORY_API_KEY" := "secret";
               "PAPR_MEMORY_API_URL" := "http://memory.internal:8080" ]};
     now := "2025-06-01T12:00:00.000Z";
     sdk := λ _ _, Normal Sample.stored |}.

(** A browser whose canvas has no 2d context but still encodes. *)
Definition contextless_browser : ImageArtifact.browser :=
  {| ImageArtifact.load_image := λ _, Some (4, 3)%nat;
     ImageArtifact.has_2d_context := false;
     ImageArtifact.encode_canvas := λ _ _ _, Some "png-bytes" |}.

Definition artifact0 : gmap string value :=
  {[ "title" := VStr "Sunset"; "content" := VStr ""; "status" := VStr "idle" ]}.

Definition delta (content : string) : ImageArtifactUI.StreamPart :=
  {| ImageArtifactUI.part_type := "image-delta";
     ImageArtifactUI.part_content := VStr content |}.

Definition finish : ImageArtifactUI.StreamPart :=
  {| ImageArtifactUI.part_type := "finish";
     ImageArtifactUI.part_content := VStr "" |}.

(** A Create with a source, a project tag and a spoofed [api_source]. *)
Definition tagged_metadata : value :=
  obj [ ("sourceUrl", VStr "https://notes.example.org/42");
        ("role", VStr "admin");
        ("customMetadata",
          VObj {[ "project" := VStr "apollo"; "api_source" := VStr "spoofed" ]}) ].

Definition tagged_body : value :=
  obj [ ("content", VStr "hello"); ("type", VStr "note"); ("metadata", tagged_metadata) ].

Definition request_create_tagged : Request :=
  {| searchParams := []; json := Normal tagged_body |}.

(** A request whose JSON body is the literal [null]. *)
Definition request_null : Request :=
  {| searchParams := []; json := Normal VNull |}.

(** A Create whose content is not ASCII: five characters, six bytes. *)
Definition accented_body : value := obj [("content", VStr "héllo")].

Definition request_create_accented : Request :=
  {| searchParams := []; json := Normal accented_body |}.

End MoreSamples.

(** ** The monad and the values: equations *)

Section Laws.
Context {A B : Type}.
Implicit Types (m : M A) (f : A → M B) (h : exn → M A) (t : list event).

Lemma after_nil m : after [] m = m.
Proof. now destruct m. Qed.

Lemma after_after t t' m : after t (after t' m) = after (t ++ t') m.
Proof. unfold after; simpl. now rewrite app_assoc. Qed.

Lemma after_ret t (a : A) : after t (ret a) = (t, Normal a).
Proof. unfold after; simpl. now rewrite app_nil_r. Qed.

Lemma after_throw t e : after t (@throw A e) = (t, Throw e).
Proof. unfold after; simpl. now rewrite app_nil_r. Qed.

Lemma bind_lift_Normal a f : bind (lift (Normal a)) f = f a.
Proof. unfold bind, lift. now destruct (f a). Qed.

Lemma bind_lift_Throw e f : bind (lift (Throw e)) f = throw e.
Proof. reflexivity. Qed.

Lemma bind_ret a f : bind (ret a) f = f a.
Proof. apply bind_lift_Normal. Qed.

Lemma bind_throw e f : bind (throw e) f = throw e.
Proof. reflexivity. Qed.

Lemma bind_after t m f : bind (after t m) f = after t (bind m f).
Proof.
  destruct m as [t' [a|e]]; unfold after, bind; simpl.
  - destruct (f a); simpl. now rewrite app_assoc.
  - reflexivity.
Qed.

Lemma try_catch_ret (a : A) h : try_catch (ret a) h = ret a.
Proof. reflexivity. Qed.

Lemma try_catch_throw e h : try_catch (throw e) h = h e.
Proof. unfold try_catch, throw. now destruct (h e). Qed.

Lemma try_catch_after t m h : try_catch (after t m) h = after t (try_catch m h).
Proof.
  destruct m as [t' [a|e]]; unfold after, try_catch; simpl.
  - reflexivity.
  - destruct (h e); simpl. now rewrite app_assoc.
Qed.
End Laws.

Lemma bind_emit {B} ev (f : unit → M B) : bind (emit ev) f = after [ev] (f tt).
Proof. unfold bind, emit, after. now destruct (f tt). Qed.

Lemma memory_after client w call :
  memory client w call = after [EvSdk client call] (lift (sdk w client call)).
Proof. unfold memory. now rewrite bind_emit. Qed.

Lemma caught_eq op e : caught op e = ([EvConsoleError (catch_label op) e], Normal (failure op)).
Proof. reflexivity. Qed.

Lemma lookup_list_to_map_assoc (fields : list (string * value)) (k : string) :
  (list_to_map fields : gmap string value) !! k = assoc k fields.
Proof.
  induction fields as [|[k' v] fields IH]; simpl.
  - apply lookup_empty.
  - destruct (String.eqb_spec k' k) as [->|Hne].
    + apply lookup_insert_eq.
    + now rewrite lookup_insert_ne.
Qed.

Lemma get_prop_obj fields k :
  get_prop (obj fields) k = Normal (default VUndefined (assoc k fields)).
Proof. unfold obj; simpl. now rewrite lookup_list_to_map_assoc. Qed.

Lemma get_prop_VObj props k :
  get_prop (VObj props) k = Normal (default VUndefined (props !! k)).
Proof. reflexivity. Qed.

Lemma get_prop_VArr items props k :
  String.eqb k "length" = false →
  get_prop (VArr items props) k = Normal (default VUndefined (props !! k)).
Proof. intros H; simpl. now rewrite H. Qed.

(** A property can be read off every value but [undefined] and [null]. *)
Lemma get_prop_defined v k x k' :
  get_prop v k = Normal x → ∃ y, get_prop v k' = Normal y.
Proof. destruct v; simpl; try discriminate; eauto. Qed.

Lemma get_prop_truthy v k : truthy v = true → ∃ x, get_prop v k = Normal x.
Proof. destruct v; simpl; try discriminate; eauto. Qed.

Lemma get_prop_object v k : is_object v = true → ∃ x, get_prop v k = Normal x.
Proof. destruct v; simpl; try discriminate; eauto. Qed.

Arguments obj : simpl never.
Arguments arr : simpl never.
Arguments get_prop : simpl never.
Arguments bind : simpl never.
Arguments lift : simpl never.
Arguments ret : simpl never.
Arguments throw : simpl never.
Arguments emit : simpl never.
Arguments try_catch : simpl never.
Arguments after : simpl never.
Arguments caught : simpl never.
Arguments settle : simpl never.

Create Rewrite HintDb js.
#[local] Hint Rewrite @after_nil @after_after @bind_lift_Normal @bind_lift_Throw
  @bind_ret @bind_throw @bind_after @try_catch_ret @try_catch_throw
  @try_catch_after @bind_emit memory_after get_prop_obj get_prop_VObj : js.

(** Run the handler as far as the equations determine it. *)
Ltac js := repeat (progress (autorewrite with js; simpl)).

(** ** The client *)

Lemma getPaprClient_absent w :
  absent (env w !! "PAPR_MEMORY_API_KEY") = true →
  getPaprClient w = throw (Error "PAPR_MEMORY_API_KEY is not defined").
Proof. intros H. unfold getPaprClient. now rewrite H. Qed.

Lemma getPaprClient_present w :
  absent (env w !! "PAPR_MEMORY_API_KEY") = false →
  ∃ client, getPaprClient w = after [EvNewPapr client] (ret client).
Proof.
  intros H. unfold getPaprClient. rewrite H. eexists. now rewrite bind_emit.
Qed.

(** ** Who is signed in *)

Lemma session_user_id_None session :
  session_user_id session = None ↔ lacks_user_id session = true.
Proof.
  destruct session as [[[[[id|]]|]]|]; simpl; try tauto.
  destruct (String.eqb id ""); split; congruence.
Qed.

Lemma caller_Some w uid :
  caller w = Some uid →
  ∃ session, auth w = Normal session ∧ session_user_id session = Some uid.
Proof. unfold caller. destruct (auth w); [eauto | discriminate]. Qed.

(** ** Create: the paths of POST *)

Section Post.
Variables (w : world) (request : Request).
Variables (uid : string) (body content : value).
Hypothesis Hcaller : caller w = Some uid.
Hypothesis Hjson : json request = Normal body.
Hypothesis Hcontent : get_prop body "content" = Normal content.

(** Run POST up to the test of [content]. *)
Ltac destructure type metadata Htype Hmetadata :=
  let session := fresh "session" in
  let Hauth := fresh "Hauth" in
  let Hsession := fresh "Hsession" in
  destruct (caller_Some _ _ Hcaller) as (session & Hauth & Hsession);
  destruct (get_prop_defined _ _ _ "type" Hcontent) as [type Htype];
  destruct (get_prop_defined _ _ _ "metadata" Hcontent) as [metadata Hmetadata];
  unfold POST; rewrite Hauth; js; rewrite Hsession, Hjson; js;
  rewrite Hcontent; js; rewrite Htype; js; rewrite Hmetadata; js.

Lemma POST_content_required :
  truthy content = false →
  POST w request =
    ret (NextResponse_json (error_body "Content is required") 400).
Proof.
  intros Hfalsy. destructure type metadata Htype Hmetadata.
  rewrite Hfalsy. now js.
Qed.

Hypothesis Htruthy : truthy content = true.

Lemma POST_without_key :
  absent (env w !! "PAPR_MEMORY_API_KEY") = true →
  POST w request = caught Create (Error "PAPR_MEMORY_API_KEY is not defined").
Proof.
  intros Hkey. destructure type metadata Htype Hmetadata.
  rewrite Htruthy, (getPaprClient_absent _ Hkey). now js.
Qed.

Variables (client : Papr) (metadata : value).
Hypothesis Hclient : getPaprClient w = after [EvNewPapr client] (ret client).
Hypothesis Hmetadata : get_prop body "metadata" = Normal metadata.

Lemma POST_metadata_rejected :
  is_object (default_to (obj []) metadata) = false →
  ∃ e, POST w request = after [EvNewPapr client] (caught Create e).
Proof.
  intros Hshape. destructure type metadata' Htype Hmetadata'.
  rewrite Hmetadata in Hmetadata'. injection Hmetadata' as <-.
  rewrite Htruthy, Hclient. js.
  destruct metadata; try discriminate; unfold get_prop, set_prop; js; eauto.
Qed.

(** Exhibit the logged and the passed values, then read them. *)
Ltac passed_metadata :=
  eexists _, _, _, _; split; [reflexivity|]; js;
  repeat split; rewrite ?get_prop_VObj, ?get_prop_VArr by reflexivity;
  [ now rewrite lookup_insert_ne, lookup_insert_eq
  | now rewrite lookup_insert_eq
  | intros ? [= <-]; try rewrite lookup_insert_ne by discriminate; reflexivity ].

(** The path that reaches the SDK: what is logged, what is passed to
    [add], and what the passed metadata holds. *)
Lemma POST_reaches_add :
  is_object (default_to (obj []) metadata) = true →
  ∃ type log memoryMetadata customMetadata,
    let params :=
      obj [("content", content); ("type", type); ("metadata", memoryMetadata)] in
    POST w request =
      after [ EvNewPapr client;
              EvConsoleLog "[Memory API] Adding memory:" log;
              EvSdk client (MemoryAdd params) ]
        (settle Create (sdk w client (MemoryAdd params))) ∧
    get_prop memoryMetadata "user_id" = Normal (VStr uid) ∧
    get_prop memoryMetadata "external_user_id" = Normal (VStr uid) ∧
    get_prop memoryMetadata "customMetadata" = Normal customMetadata ∧
    get_prop customMetadata "api_source" = Normal (VStr "memory_route") ∧
    get_prop customMetadata "app_user_id" = Normal (VStr uid) ∧
    ∀ topics,
      get_prop (default_to (obj []) metadata) "topics" = Normal topics →
      get_prop memoryMetadata "topics" = Normal (or_else topics (arr [])).
Proof.
  intros Hshape. destructure type metadata' Htype Hmetadata'.
  rewrite Hmetadata in Hmetadata'. injection Hmetadata' as <-.
  rewrite Htruthy, Hclient. js.
  destruct (get_prop_truthy _ "length" Htruthy) as [contentLength HcontentLength].
  set (md := default_to (obj []) metadata) in *.
  destruct md as [| | | | |items props|props]; try discriminate.
  - rewrite !get_prop_VArr by reflexivity. js.
    destruct (truthy (default VUndefined (props !! "customMetadata"))); simpl;
      unfold set_prop; js; rewrite !get_prop_VArr by reflexivity; js;
      rewrite HcontentLength; js; passed_metadata.
  - js.
    destruct (truthy (default VUndefined (props !! "customMetadata"))); simpl;
      unfold set_prop; js; rewrite HcontentLength; js; passed_metadata.
Qed.
End Post.

(** ** The guard of the session, in each handler *)

Lemma handler_unauthorized op w request session :
  auth w = Normal session → session_user_id session = None →
  handler op w request = ret Unauthorized.
Proof.
  intros Hauth Hsession.
  destruct op; simpl; [unfold POST|unfold GET|unfold DELETE|unfold PUT];
    rewrite Hauth; js; rewrite Hsession; now js.
Qed.

Lemma handler_auth_throws op w request e :
  auth w = Throw e → handler op w request = caught op e.
Proof.
  intros Hauth.
  destruct op; simpl; [unfold POST|unfold GET|unfold DELETE|unfold PUT];
    rewrite Hauth; now js.
Qed.

Section Authenticated.
Variables (w : world) (request : Request) (uid : string).
Hypothesis Hcaller : caller w = Some uid.

(** Run a handler up to where it looks at the request. *)
Ltac enter :=
  let session := fresh "session" in
  let Hauth := fresh "Hauth" in
  let Hsession := fresh "Hsession" in
  destruct (caller_Some _ _ Hcaller) as (session & Hauth & Hsession);
  rewrite Hauth; js; rewrite Hsession; js.

Lemma POST_json_throws e :
  json request = Throw e → POST w request = caught Create e.
Proof. intros Hjson. unfold POST. enter. rewrite Hjson. now js. Qed.

Lemma PUT_json_throws e :
  json request = Throw e → PUT w request = caught Update e.
Proof. intros Hjson. unfold PUT. enter. rewrite Hjson. now js. Qed.

(** Destructuring [undefined] or [null] throws. *)
Lemma POST_body_throws body e :
  json request = Normal body → get_prop body "content" = Throw e →
  POST w request = caught Create e.
Proof. intros Hjson Hcontent. unfold POST. enter. rewrite Hjson. js. rewrite Hcontent. now js. Qed.

Lemma PUT_body_throws body e :
  json request = Normal body → get_prop body "memory_id" = Throw e →
  PUT w request = caught Update e.
Proof. intros Hjson Hid. unfold PUT. enter. rewrite Hjson. js. rewrite Hid. now js. Qed.

(** *** Search *)

Lemma GET_query_required :
  absent (searchParams_get (searchParams request) "query") = true →
  GET w request =
    ret (NextResponse_json (error_body "Query parameter is required") 400).
Proof. intros Hquery. unfold GET. enter. rewrite Hquery. now js. Qed.

Lemma GET_without_key :
  absent (searchParams_get (searchParams request) "query") = false →
  absent (env w !! "PAPR_MEMORY_API_KEY") = true →
  GET w request = caught Search (Error "PAPR_MEMORY_API_KEY is not defined").
Proof.
  intros Hquery Hkey. unfold GET. enter.
  rewrite Hquery, (getPaprClient_absent _ Hkey). now js.
Qed.

Lemma GET_reaches_search client :
  absent (searchParams_get (searchParams request) "query") = false →
  getPaprClient w = after [EvNewPapr client] (ret client) →
  let call :=
    MemorySearch
      (obj [ ("query", VStr (default "" (searchParams_get (searchParams request) "query")));
             ("user_id", VStr uid) ])
      (obj [ ("query", obj [ ("max_memories", VNum 25) ]) ]) in
  GET w request =
    after [ EvNewPapr client; EvSdk client call ] (settle Search (sdk w client call)).
Proof.
  intros Hquery Hclient. unfold GET. enter. rewrite Hquery, Hclient. now js.
Qed.

(** *** Delete *)

Lemma DELETE_id_required :
  absent (searchParams_get (searchParams request) "id") = true →
  DELETE w request =
    ret (NextResponse_json (error_body "Memory ID is required") 400).
Proof. intros Hid. unfold DELETE. enter. rewrite Hid. now js. Qed.

Lemma DELETE_without_key :
  absent (searchParams_get (searchParams request) "id") = false →
  absent (env w !! "PAPR_MEMORY_API_KEY") = true →
  DELETE w request = caught Delete (Error "PAPR_MEMORY_API_KEY is not defined").
Proof.
  intros Hid Hkey. unfold DELETE. enter.
  rewrite Hid, (getPaprClient_absent _ Hkey). now js.
Qed.

Lemma DELETE_reaches_delete client :
  absent (searchParams_get (searchParams request) "id") = false →
  getPaprClient w = after [EvNewPapr client] (ret client) →
  let call := MemoryDelete (default "" (searchParams_get (searchParams request) "id")) in
  DELETE w request =
    after [ EvNewPapr client; EvSdk client call ] (settle Delete (sdk w client call)).
Proof.
  intros Hid Hclient. unfold DELETE. enter. rewrite Hid, Hclient. now js.
Qed.

(** *** Update *)

Variables (body memory_id : value).
Hypothesis Hjson : json request = Normal body.
Hypothesis Hmemory_id : get_prop body "memory_id" = Normal memory_id.

(** Run PUT up to the test of [memory_id]. *)
Ltac destructure content metadata type :=
  let H := fresh "H" in
  unfold PUT; enter; rewrite Hjson; js; rewrite Hmemory_id; js;
  destruct (get_prop_defined _ _ _ "content" Hmemory_id) as [content H];
  rewrite H; clear H; js;
  destruct (get_prop_defined _ _ _ "metadata" Hmemory_id) as [metadata H];
  rewrite H; clear H; js;
  destruct (get_prop_defined _ _ _ "type" Hmemory_id) as [type H];
  rewrite H; clear H; js.

Lemma PUT_id_required :
  truthy memory_id = false →
  PUT w request =
    ret (NextResponse_json (error_body "Memory ID is required") 400).
Proof. intros Hfalsy. destructure content metadata type. rewrite Hfalsy. now js. Qed.

Lemma PUT_without_key :
  truthy memory_id = true →
  absent (env w !! "PAPR_MEMORY_API_KEY") = true →
  PUT w request = caught Update (Error "PAPR_MEMORY_API_KEY is not defined").
Proof.
  intros Htruthy Hkey. destructure content metadata type.
  rewrite Htruthy, (getPaprClient_absent _ Hkey). now js.
Qed.

Lemma PUT_reaches_update client :
  truthy memory_id = true →
  getPaprClient w = after [EvNewPapr client] (ret client) →
  ∃ params,
    let call := MemoryUpdate memory_id params in
    PUT w request =
      after [ EvNewPapr client; EvSdk client call ] (settle Update (sdk w client call)).
Proof.
  intros Htruthy Hclient. destructure content metadata type.
  rewrite Htruthy, Hclient. js. eexists. reflexivity.
Qed.
End Authenticated.

(** ** Every run of a handler *)

Lemma sdk_calls_app t t' : sdk_calls (t ++ t') = (sdk_calls t ++ sdk_calls t')%list.
Proof. apply omap_app. Qed.

Lemma In_sdk_calls client call t : In (EvSdk client call) t → In call (sdk_calls t).
Proof.
  induction t as [|ev t IH]; simpl; [tauto|].
  intros [->|Hin]; simpl; [now left|].
  destruct ev; simpl; auto.
Qed.

Lemma settle_Throw op e : settle op (Throw e) = caught op e.
Proof. unfold settle. now js. Qed.

(** Settling answers, and performs nothing but the log of its [catch]. *)
Lemma settle_quiet op c :
  ∃ t response,
    settle op c = (t, Normal response) ∧
    Forall (λ ev, is_remote ev = false) t.
Proof.
  unfold settle. destruct c as [response|e]; js.
  - destruct op; js;
      try (eexists _, _; split; [reflexivity | constructor]);
      (destruct (get_prop response "data"); js;
       eexists _, _; split; try reflexivity; repeat constructor).
  - eexists _, _; split; [reflexivity | repeat constructor].
Qed.

Lemma not_remote_sdk_calls t :
  Forall (λ ev, is_remote ev = false) t → sdk_calls t = [].
Proof.
  induction 1 as [|ev t Hev _ IH]; [reflexivity|].
  destruct ev; simpl in *; try discriminate; assumption.
Qed.

Section Cases.
Local Lemma alone_quiet op w request m t response :
  handler op w request = m → m = (t, Normal response) →
  Forall (λ ev, is_remote ev = false) t → status response ≠ 200 →
  answers_alone op w request.
Proof.
  intros Hm Heq Hall Hstatus. exists t, response. rewrite Hm.
  repeat split; auto using not_remote_sdk_calls.
Qed.

Local Lemma alone_keyed op w request m t response :
  handler op w request = m → m = (t, Normal response) →
  absent (env w !! "PAPR_MEMORY_API_KEY") = false →
  sdk_calls t = [] → status response ≠ 200 →
  answers_alone op w request.
Proof.
  intros Hm Heq Hkey Hcalls Hstatus. exists t, response. rewrite Hm.
  repeat split; auto. rewrite Hkey. discriminate.
Qed.

Local Lemma once op w request m pre client call :
  handler op w request = m →
  m = after (pre ++ [EvSdk client call]) (settle op (sdk w client call)) →
  absent (env w !! "PAPR_MEMORY_API_KEY") = false →
  sdk_calls pre = [] →
  calls_once op w request.
Proof.
  intros Hm Heq Hkey Hpre. split; [assumption|].
  exists pre, client, call. now rewrite Hm.
Qed.

Lemma handler_cases op w request :
  answers_alone op w request ∨ calls_once op w request.
Proof.
  destruct (auth w) as [session|e] eqn:Hauth.
  2: { left. eapply alone_quiet;
         [ apply (handler_auth_throws _ _ _ _ Hauth) | reflexivity
         | repeat constructor | discriminate ]. }
  destruct (session_user_id session) as [uid|] eqn:Hsession.
  2: { left. eapply alone_quiet;
         [ apply (handler_unauthorized _ _ _ _ Hauth Hsession) | reflexivity
         | constructor | discriminate ]. }
  assert (Hcaller : caller w = Some uid) by (unfold caller; now rewrite Hauth).
  destruct (absent (env w !! "PAPR_MEMORY_API_KEY")) eqn:Hkey.
  - (* no key: the handler stops at the client at the latest *)
    left. destruct op; simpl.
    + destruct (json request) as [body|e] eqn:Hjson.
      2: { eapply alone_quiet;
             [ apply (POST_json_throws _ _ _ Hcaller _ Hjson) | reflexivity
             | repeat constructor | discriminate ]. }
      destruct (get_prop body "content") as [content|e] eqn:Hcontent.
      2: { eapply alone_quiet;
             [ apply (POST_body_throws _ _ _ Hcaller _ _ Hjson Hcontent) | reflexivity
             | repeat constructor | discriminate ]. }
      destruct (truthy content) eqn:Htruthy.
      * eapply alone_quiet;
          [ apply (POST_without_key _ _ _ _ _ Hcaller Hjson Hcontent Htruthy Hkey)
          | reflexivity | repeat constructor | discriminate ].
      * eapply alone_quiet;
          [ apply (POST_content_required _ _ _ _ _ Hcaller Hjson Hcontent Htruthy)
          | reflexivity | repeat constructor | discriminate ].
    + destruct (absent (searchParams_get (searchParams request) "query")) eqn:Hquery.
      * eapply alone_quiet;
          [ apply (GET_query_required _ _ _ Hcaller Hquery)
          | reflexivity | repeat constructor | discriminate ].
      * eapply alone_quiet;
          [ apply (GET_without_key _ _ _ Hcaller Hquery Hkey)
          | reflexivity | repeat constructor | discriminate ].
    + destruct (absent (searchParams_get (searchParams request) "id")) eqn:Hid.
      * eapply alone_quiet;
          [ apply (DELETE_id_required _ _ _ Hcaller Hid)
          | reflexivity | repeat constructor | discriminate ].
      * eapply alone_quiet;
          [ apply (DELETE_without_key _ _ _ Hcaller Hid Hkey)
          | reflexivity | repeat constructor | discriminate ].
    + destruct (json request) as [body|e] eqn:Hjson.
      2: { eapply alone_quiet;
             [ apply (PUT_json_throws _ _ _ Hcaller _ Hjson) | reflexivity
             | repeat constructor | discriminate ]. }
      destruct (get_prop body "memory_id") as [memory_id|e] eqn:Hid.
      2: { eapply alone_quiet;
             [ apply (PUT_body_throws _ _ _ Hcaller _ _ Hjson Hid) | reflexivity
             | repeat constructor | discriminate ]. }
      destruct (truthy memory_id) eqn:Htruthy.
      * eapply alone_quiet;
          [ apply (PUT_without_key _ _ _ Hcaller _ _ Hjson Hid Htruthy Hkey)
          | reflexivity | repeat constructor | discriminate ].
      * eapply alone_quiet;
          [ apply (PUT_id_required _ _ _ Hcaller _ _ Hjson Hid Htruthy)
          | reflexivity | repeat constructor | discriminate ].
  - (* a key: a client is constructed once the request is validated *)
    destruct (getPaprClient_present _ Hkey) as [client Hclient].
    destruct op; simpl.
    + destruct (json request) as [body|e] eqn:Hjson.
      2: { left. eapply alone_quiet;
             [ apply (POST_json_throws _ _ _ Hcaller _ Hjson) | reflexivity
             | repeat constructor | discriminate ]. }
      destruct (get_prop body "content") as [content|e] eqn:Hcontent.
      2: { left. eapply alone_quiet;
             [ apply (POST_body_throws _ _ _ Hcaller _ _ Hjson Hcontent) | reflexivity
             | repeat constructor | discriminate ]. }
      destruct (truthy content) eqn:Htruthy.
      2: { left. eapply alone_quiet;
             [ apply (POST_content_required _ _ _ _ _ Hcaller Hjson Hcontent Htruthy)
             | reflexivity | repeat constructor | discriminate ]. }
      destruct (get_prop_defined _ _ _ "metadata" Hcontent) as [metadata Hmetadata].
      destruct (is_object (default_to (obj []) metadata)) eqn:Hshape.
      * right.
        destruct (POST_reaches_add _ _ _ _ _ Hcaller Hjson Hcontent Htruthy
                    _ _ Hclient Hmetadata Hshape)
          as (type & log & memoryMetadata & customMetadata & Hrun & _).
        eapply (once _ _ _ _ [_; _]); [ apply Hrun | reflexivity | assumption | reflexivity ].
      * left.
        destruct (POST_metadata_rejected _ _ _ _ _ Hcaller Hjson Hcontent Htruthy
                    _ _ Hclient Hmetadata Hshape) as [e Hrun].
        eapply alone_keyed;
          [ apply Hrun | reflexivity | assumption | reflexivity | discriminate ].
    + destruct (absent (searchParams_get (searchParams request) "query")) eqn:Hquery.
      * left. eapply alone_quiet;
          [ apply (GET_query_required _ _ _ Hcaller Hquery)
          | reflexivity | repeat constructor | discriminate ].
      * right. eapply (once _ _ _ _ [_]);
          [ apply (GET_reaches_search _ _ _ Hcaller _ Hquery Hclient)
          | reflexivity | assumption | reflexivity ].
    + destruct (absent (searchParams_get (searchParams request) "id")) eqn:Hid.
      * left. eapply alone_quiet;
          [ apply (DELETE_id_required _ _ _ Hcaller Hid)
          | reflexivity | repeat constructor | discriminate ].
      * right. eapply (once _ _ _ _ [_]);
          [ apply (DELETE_reaches_delete _ _ _ Hcaller _ Hid Hclient)
          | reflexivity | assumption | reflexivity ].
    + destruct (json request) as [body|e] eqn:Hjson.
      2: { left. eapply alone_quiet;
             [ apply (PUT_json_throws _ _ _ Hcaller _ Hjson) | reflexivity
             | repeat constructor | discriminate ]. }
      destruct (get_prop body "memory_id") as [memory_id|e] eqn:Hid.
      2: { left. eapply alone_quiet;
             [ apply (PUT_body_throws _ _ _ Hcaller _ _ Hjson Hid) | reflexivity
             | repeat constructor | discriminate ]. }
      destruct (truthy memory_id) eqn:Htruthy.
      2: { left. eapply alone_quiet;
             [ apply (PUT_id_required _ _ _ Hcaller _ _ Hjson Hid Htruthy)
             | reflexivity | repeat constructor | discriminate ]. }
      right.
      destruct (PUT_reaches_update _ _ _ Hcaller _ _ Hjson Hid _ Htruthy Hclient)
        as [params Hrun].
      eapply (once _ _ _ _ [_]); [ apply Hrun | reflexivity | assumption | reflexivity ].
Qed.
End Cases.

(** ** Sample runs *)

Example getPaprClient_forces_https :
  getPaprClient
    {| auth := Normal None;
       env := {[ "PAPR_MEMORY_API_KEY" := "secret";
                 "PAPR_MEMORY_API_URL" := "http://memory.example.org" ]};
       now := "";
       sdk := λ _ _, Normal VNull |}
  = ([EvNewPapr {| xAPIKey := "secret"; baseURL := "https://memory.example.org" |}],
     Normal {| xAPIKey := "secret"; baseURL := "https://memory.example.org" |}).
Proof. reflexivity. Qed.

Example POST_stores :
  result (POST Sample.world_ok Sample.request_create)
  = Normal {| status := 200;
              body := obj [("success", VBool true);
                           ("data", obj [("memory_id", VStr "m-42")])] |}.
Proof. reflexivity. Qed.

Example GET_searches :
  GET Sample.world_ok Sample.request_search
  = ([ EvNewPapr {| xAPIKey := "secret"; baseURL := "https://memory.papr.ai" |};
       EvSdk {| xAPIKey := "secret"; baseURL := "https://memory.papr.ai" |}
         (MemorySearch
            (obj [("query", VStr "cats"); ("user_id", VStr "user-1")])
            (obj [("query", obj [("max_memories", VNum 25)])])) ],
     Normal {| status := 200;
               body := obj [("success", VBool true);
                            ("data", obj [("memory_id", VStr "m-42")])] |}).
Proof. reflexivity. Qed.

(** A [null] body cannot be destructured: the answer is the 500 of the
    [catch], not a 400. *)
Example PUT_null_body :
  result (PUT Sample.world_ok {| searchParams := []; json := Normal VNull |})
  = Normal {| status := 500; body := obj [("error", VStr "Failed to update memory")] |}.
Proof. reflexivity. Qed.

(** ** The specified properties *)

(** C3. A request whose session is absent, has no user, or whose user has
    no id is answered, by each of the four handlers, with HTTP 401 and the
    body [{ error: "Unauthorized" }]; the handler performs no event at all,
    so no client is constructed and the SDK is not invoked. *)
Theorem unauthorized_without_remote_call
    (op : operation) (w : world) (request : Request) (session : option Session) :
  auth w = Normal session →
  lacks_user_id session = true →
  handler op w request =
    ([], Normal {| status := 401; body := obj [("error", VStr "Unauthorized")] |}).
Proof.
  intros Hauth Hlacks. apply session_user_id_None in Hlacks.
  now rewrite (handler_unauthorized _ _ _ _ Hauth Hlacks).
Qed.

Lemma unauthorized_without_remote_call_witness :
  auth Sample.world_anonymous = Normal None ∧
  lacks_user_id None = true ∧
  handler Delete Sample.world_anonymous Sample.request_delete =
    ([], Normal {| status := 401; body := obj [("error", VStr "Unauthorized")] |}).
Proof.
  split; [reflexivity|]. split; [reflexivity|].
  apply (unauthorized_without_remote_call
           Delete Sample.world_anonymous Sample.request_delete None);
    reflexivity.
Defined.

(** C6, as the code has it. An authenticated Create whose JSON body is not
    [null], so that [content] can be read off it, and whose [content] is
    empty or absent (any falsy one) is answered with HTTP 400 and the body
    [{ error: "Content is required" }], without any event: no client, no
    SDK call. *)
Theorem create_requires_content
    (w : world) (request : Request) (uid : string) (body content : value) :
  caller w = Some uid →
  json request = Normal body →
  get_prop body "content" = Normal content →
  truthy content = false →
  POST w request =
    ([], Normal {| status := 400; body := obj [("error", VStr "Content is required")] |}).
Proof.
  intros Hcaller Hjson Hcontent Hfalsy.
  now rewrite (POST_content_required _ _ _ _ _ Hcaller Hjson Hcontent Hfalsy).
Qed.

Lemma create_requires_content_witness :
  truthy (VStr "") = false
  ∧ POST Sample.world_ok Sample.request_empty_content =
      ([], Normal {| status := 400; body := obj [("error", VStr "Content is required")] |}).
Proof.
  split; [reflexivity|].
  apply (create_requires_content
           Sample.world_ok Sample.request_empty_content "user-1"
           (obj [("content", VStr "")]) (VStr ""));
    reflexivity.
Defined.

(** C6, as the specification words it, fails on the JSON body [null]: it
    has no [content], yet destructuring it throws inside the [try], and the
    authenticated caller gets the 500 of the [catch], not the 400. *)
Lemma create_null_body_is_500 :
  caller Sample.world_ok = Some "user-1"
  ∧ json MoreSamples.request_null = Normal VNull
  ∧ (∃ e, POST Sample.world_ok MoreSamples.request_null =
            ([EvConsoleError "Error adding memory:" e],
             Normal {| status := 500;
                       body := obj [("error", VStr "Failed to add memory")] |}))
  ∧ result (POST Sample.world_ok MoreSamples.request_null)
    ≠ Normal {| status := 400; body := obj [("error", VStr "Content is required")] |}.
Proof.
  split; [reflexivity|]. split; [reflexivity|]. split.
  - eexists. reflexivity.
  - intros Hanswer. vm_compute in Hanswer. discriminate Hanswer.
Qed.

(** C7, as the code has it. An authenticated Delete without an [id] query
    parameter, and an authenticated Update whose JSON body is not [null],
    so that [memory_id] can be read off it, and has no [memory_id], are
    answered with HTTP 400 and the body [{ error: "Memory ID is required" }],
    without any event: no client, no SDK call. The same holds for an empty
    [id] and for any falsy [memory_id]. *)
Theorem delete_update_require_memory_id
    (w : world) (request : Request) (uid : string) :
  caller w = Some uid →
  (absent (searchParams_get (searchParams request) "id") = true →
   DELETE w request =
     ([], Normal {| status := 400; body := obj [("error", VStr "Memory ID is required")] |}))
  ∧ (∀ body memory_id,
       json request = Normal body →
       get_prop body "memory_id" = Normal memory_id →
       truthy memory_id = false →
       PUT w request =
         ([], Normal {| status := 400; body := obj [("error", VStr "Memory ID is required")] |})).
Proof.
  intros Hcaller. split.
  - intros Hid. now rewrite (DELETE_id_required _ _ _ Hcaller Hid).
  - intros body memory_id Hjson Hid Hfalsy.
    now rewrite (PUT_id_required _ _ _ Hcaller _ _ Hjson Hid Hfalsy).
Qed.

Lemma delete_update_require_memory_id_witness :
  searchParams_get (searchParams Sample.request_without_id) "id" = None
  ∧ get_prop Sample.update_body_without_id "memory_id" = Normal VUndefined
  ∧ DELETE Sample.world_ok Sample.request_without_id =
      ([], Normal {| status := 400; body := obj [("error", VStr "Memory ID is required")] |})
  ∧ PUT Sample.world_ok Sample.request_without_id =
      ([], Normal {| status := 400; body := obj [("error", VStr "Memory ID is required")] |}).
Proof.
  split; [reflexivity|]. split; [reflexivity|].
  destruct (delete_update_require_memory_id
              Sample.world_ok Sample.request_without_id "user-1" eq_refl)
    as [Hdelete Hput].
  split.
  - apply Hdelete. reflexivity.
  - apply (Hput Sample.update_body_without_id VUndefined); reflexivity.
Defined.

(** C7, as the specification words it, fails for Update on the JSON body
    [null]: it has no [memory_id], yet destructuring it throws inside the
    [try], and the authenticated caller gets the 500 of the [catch], not
    the 400. *)
Lemma update_null_body_is_500 :
  caller Sample.world_ok = Some "user-1"
  ∧ json MoreSamples.request_null = Normal VNull
  ∧ (∃ e, PUT Sample.world_ok MoreSamples.request_null =
            ([EvConsoleError "Error updating memory:" e],
             Normal {| status := 500;
                       body := obj [("error", VStr "Failed to update memory")] |}))
  ∧ result (PUT Sample.world_ok MoreSamples.request_null)
    ≠ Normal {| status := 400; body := obj [("error", VStr "Memory ID is required")] |}.
Proof.
  split; [reflexivity|]. split; [reflexivity|]. split.
  - eexists. reflexivity.
  - intros Hanswer. vm_compute in Hanswer. discriminate Hanswer.
Qed.

(** C9. When the body of an authenticated Create or Update is not
    parseable as JSON, [request.json()] rejects inside the handler's [try]:
    the error is logged and the answer is HTTP 500 with the operation's
    generic message, not a 400. *)
Theorem unparseable_body_is_500
    (w : world) (request : Request) (uid : string) (e : exn) :
  caller w = Some uid →
  json request = Throw e →
  POST w request =
    ([EvConsoleError "Error adding memory:" e],
     Normal {| status := 500; body := obj [("error", VStr "Failed to add memory")] |})
  ∧ PUT w request =
    ([EvConsoleError "Error updating memory:" e],
     Normal {| status := 500; body := obj [("error", VStr "Failed to update memory")] |}).
Proof.
  intros Hcaller Hjson. split.
  - now rewrite (POST_json_throws _ _ _ Hcaller _ Hjson).
  - now rewrite (PUT_json_throws _ _ _ Hcaller _ Hjson).
Qed.

Lemma unparseable_body_is_500_witness :
  POST Sample.world_ok Sample.request_unparseable =
    ([EvConsoleError "Error adding memory:" Sample.not_json],
     Normal {| status := 500; body := obj [("error", VStr "Failed to add memory")] |})
  ∧ PUT Sample.world_ok Sample.request_unparseable =
    ([EvConsoleError "Error updating memory:" Sample.not_json],
     Normal {| status := 500; body := obj [("error", VStr "Failed to update memory")] |}).
Proof.
  apply (unparseable_body_is_500
           Sample.world_ok Sample.request_unparseable "user-1" Sample.not_json);
    reflexivity.
Defined.

(** *** Runs that reach the SDK *)

Lemma no_call_not_In t client call : sdk_calls t = [] → ¬ In (EvSdk client call) t.
Proof. intros Hnone Hin. apply In_sdk_calls in Hin. rewrite Hnone in Hin. destruct Hin. Qed.

(** In a run that calls the SDK once and settles, that call is the only
    one, and the answer is the one of settling. *)
Lemma call_then_settle op c pre client call (m : M Response) :
  m = after (pre ++ [EvSdk client call]) (settle op c) →
  sdk_calls pre = [] →
  sdk_calls (trace m) = [call]
  ∧ (∀ client' call', In (EvSdk client' call') (trace m) → client' = client ∧ call' = call)
  ∧ trace m = (pre ++ [EvSdk client call] ++ trace (settle op c))%list
  ∧ result m = result (settle op c).
Proof.
  intros -> Hpre. destruct (settle_quiet op c) as (t & response & Hsettle & Hquiet).
  rewrite Hsettle. unfold after, trace, result; simpl.
  assert (Honly : ∀ client' call',
             In (EvSdk client' call') ((pre ++ [EvSdk client call]) ++ t) →
             client' = client ∧ call' = call).
  { intros client' call' Hin.
    apply in_app_or in Hin as [Hin|Hin].
    - apply in_app_or in Hin as [Hin|[Hin|[]]].
      + now apply no_call_not_In in Hin.
      + split; congruence.
    - rewrite Forall_forall in Hquiet.
      apply list_elem_of_In, Hquiet in Hin. discriminate. }
  split; [|split; [exact Honly|split; [|reflexivity]]].
  - rewrite !sdk_calls_app, Hpre, (not_remote_sdk_calls _ Hquiet). reflexivity.
  - now rewrite <- app_assoc.
Qed.

(** C2. Whenever a handler of one of the four operations has made its SDK
    call and that call rejects, the handler answers HTTP 500 with the body
    [{ error: <the operation's fixed message> }]; the exception goes to
    [console.error] right after the call and nowhere else. The answer is
    one and the same for every failing run of the operation, whatever the
    exception: nothing of its text can be in the body. *)
Theorem remote_failure_is_generic_500
    (op : operation) (w : world) (request : Request)
    (client : Papr) (call : sdk_call) (e : exn) :
  In (EvSdk client call) (trace (handler op w request)) →
  sdk w client call = Throw e →
  result (handler op w request) =
    Normal {| status := 500; body := obj [("error", VStr (generic_message op))] |}
  ∧ (∃ pre, trace (handler op w request) =
              (pre ++ [EvSdk client call; EvConsoleError (catch_label op) e])%list)
  ∧ (∀ w' request' client' call' e',
       In (EvSdk client' call') (trace (handler op w' request')) →
       sdk w' client' call' = Throw e' →
       result (handler op w' request') = result (handler op w request)).
Proof.
  assert (Hfail : ∀ w request client call e,
             In (EvSdk client call) (trace (handler op w request)) →
             sdk w client call = Throw e →
             result (handler op w request) = Normal (failure op)
             ∧ ∃ pre, trace (handler op w request) =
                 (pre ++ [EvSdk client call; EvConsoleError (catch_label op) e])%list).
  { clear. intros w request client call e Hin Hthrow.
    destruct (handler_cases op w request)
      as [(t & response & Hrun & Hnone & _)|(_ & pre & client' & call' & Hrun & Hpre)].
    - rewrite Hrun in Hin. now apply no_call_not_In in Hin.
    - destruct (call_then_settle _ _ _ _ _ _ Hrun Hpre) as (_ & Honly & Htrace & Hresult).
      destruct (Honly _ _ Hin) as [<- <-].
      rewrite Hthrow, settle_Throw in Htrace, Hresult.
      split; [exact Hresult|]. exists pre. exact Htrace. }
  intros Hin Hthrow. destruct (Hfail _ _ _ _ _ Hin Hthrow) as [Hresult Htrace].
  split; [exact Hresult|]. split; [exact Htrace|].
  intros w' request' client' call' e' Hin' Hthrow'.
  destruct (Hfail _ _ _ _ _ Hin' Hthrow') as [Hresult' _].
  now rewrite Hresult, Hresult'.
Qed.

Lemma remote_failure_is_generic_500_witness :
  result (DELETE Sample.world_down Sample.request_delete) =
    Normal {| status := 500; body := obj [("error", VStr "Failed to delete memory")] |}.
Proof.
  apply (remote_failure_is_generic_500
           Delete Sample.world_down Sample.request_delete
           {| xAPIKey := "secret"; baseURL := "https://memory.papr.ai" |}
           (MemoryDelete "m-42") Sample.refused).
  - simpl. right. left. reflexivity.
  - reflexivity.
Defined.

(** C1. In a Create with a valid session and a non-empty [content], every
    value passed to the remote [add] carries, in its [metadata], [user_id]
    and [external_user_id] equal to the caller's id and
    [customMetadata.api_source] equal to ["memory_route"], whatever the
    client sent as metadata; and with a configured key and a metadata that
    is an object (or absent), the remote [add] is called, once. *)
Theorem create_forces_identity
    (w : world) (request : Request) (uid : string) (body content metadata : value) :
  caller w = Some uid →
  json request = Normal body →
  get_prop body "content" = Normal content →
  truthy content = true →
  get_prop body "metadata" = Normal metadata →
  (∀ client call,
     In (EvSdk client call) (trace (POST w request)) →
     ∃ params memoryMetadata customMetadata,
       call = MemoryAdd params
       ∧ get_prop params "metadata" = Normal memoryMetadata
       ∧ get_prop memoryMetadata "user_id" = Normal (VStr uid)
       ∧ get_prop memoryMetadata "external_user_id" = Normal (VStr uid)
       ∧ get_prop memoryMetadata "customMetadata" = Normal customMetadata
       ∧ get_prop customMetadata "api_source" = Normal (VStr "memory_route"))
  ∧ (absent (env w !! "PAPR_MEMORY_API_KEY") = false →
     is_object (default_to (obj []) metadata) = true →
     ∃ params, sdk_calls (trace (POST w request)) = [MemoryAdd params]).
Proof.
  intros Hcaller Hjson Hcontent Htruthy Hmetadata.
  destruct (absent (env w !! "PAPR_MEMORY_API_KEY")) eqn:Hkey.
  { rewrite (POST_without_key _ _ _ _ _ Hcaller Hjson Hcontent Htruthy Hkey).
    split; [|discriminate].
    intros client call [Hin|[]]. discriminate. }
  destruct (getPaprClient_present _ Hkey) as [client Hclient].
  destruct (is_object (default_to (obj []) metadata)) eqn:Hshape.
  - destruct (POST_reaches_add _ _ _ _ _ Hcaller Hjson Hcontent Htruthy
                _ _ Hclient Hmetadata Hshape)
      as (type & log & memoryMetadata & customMetadata
          & Hrun & Huser & Hexternal & Hcustom & Hsource & _).
    destruct (call_then_settle Create _ [_; _] _ _ _ Hrun eq_refl)
      as (Hcalls & Honly & _).
    split.
    + intros client' call' Hin. destruct (Honly _ _ Hin) as [-> ->].
      exists (obj [("content", content); ("type", type); ("metadata", memoryMetadata)]),
        memoryMetadata, customMetadata.
      rewrite get_prop_obj. repeat split; assumption.
    + intros _ _. eexists. exact Hcalls.
  - destruct (POST_metadata_rejected _ _ _ _ _ Hcaller Hjson Hcontent Htruthy
                _ _ Hclient Hmetadata Hshape) as [e ->].
    split; [|discriminate].
    intros client' call' [Hin|[Hin|[]]]; discriminate.
Qed.

Lemma create_forces_identity_witness :
  get_prop Sample.spoofed_metadata "user_id" = Normal (VStr "mallory")
  ∧ (∃ params,
       sdk_calls (trace (POST Sample.world_ok Sample.request_create)) = [MemoryAdd params])
  ∧ (∀ client call,
       In (EvSdk client call) (trace (POST Sample.world_ok Sample.request_create)) →
       ∃ params memoryMetadata customMetadata,
         call = MemoryAdd params
         ∧ get_prop params "metadata" = Normal memoryMetadata
         ∧ get_prop memoryMetadata "user_id" = Normal (VStr "user-1")
         ∧ get_prop memoryMetadata "external_user_id" = Normal (VStr "user-1")
         ∧ get_prop memoryMetadata "customMetadata" = Normal customMetadata
         ∧ get_prop customMetadata "api_source" = Normal (VStr "memory_route")).
Proof.
  split; [reflexivity|].
  destruct (create_forces_identity
              Sample.world_ok Sample.request_create "user-1"
              Sample.create_body (VStr "hello") Sample.spoofed_metadata
              eq_refl eq_refl eq_refl eq_refl eq_refl) as [Hforced Hcalled].
  split; [|exact Hforced].
  apply Hcalled; reflexivity.
Defined.

(** C8. In an accepted Create, a [metadata.topics] supplied as a list of
    strings is passed to the remote [add] as that very list, element for
    element and in the same order; when [topics] is absent, the empty list
    is passed. *)
Theorem create_keeps_topics
    (w : world) (request : Request) (uid : string) (body content metadata : value) :
  caller w = Some uid →
  json request = Normal body →
  get_prop body "content" = Normal content →
  truthy content = true →
  get_prop body "metadata" = Normal metadata →
  is_object (default_to (obj []) metadata) = true →
  absent (env w !! "PAPR_MEMORY_API_KEY") = false →
  ∃ params memoryMetadata,
    sdk_calls (trace (POST w request)) = [MemoryAdd params]
    ∧ get_prop params "metadata" = Normal memoryMetadata
    ∧ (∀ topics : list string,
         get_prop (default_to (obj []) metadata) "topics" = Normal (arr (VStr <$> topics)) →
         get_prop memoryMetadata "topics" = Normal (arr (VStr <$> topics)))
    ∧ (get_prop (default_to (obj []) metadata) "topics" = Normal VUndefined →
       get_prop memoryMetadata "topics" = Normal (arr [])).
Proof.
  intros Hcaller Hjson Hcontent Htruthy Hmetadata Hshape Hkey.
  destruct (getPaprClient_present _ Hkey) as [client Hclient].
  destruct (POST_reaches_add _ _ _ _ _ Hcaller Hjson Hcontent Htruthy
              _ _ Hclient Hmetadata Hshape)
    as (type & log & memoryMetadata & customMetadata & Hrun & _ & _ & _ & _ & _ & Htopics).
  destruct (call_then_settle Create _ [_; _] _ _ _ Hrun eq_refl) as (Hcalls & _).
  exists (obj [("content", content); ("type", type); ("metadata", memoryMetadata)]),
    memoryMetadata.
  split; [exact Hcalls|]. split; [now rewrite get_prop_obj|]. split.
  - intros topics Hsupplied. now rewrite (Htopics _ Hsupplied).
  - intros Hundefined. now rewrite (Htopics _ Hundefined).
Qed.

Lemma create_keeps_topics_witness :
  ∃ params memoryMetadata,
    sdk_calls (trace (POST Sample.world_ok Sample.request_create)) = [MemoryAdd params]
    ∧ get_prop params "metadata" = Normal memoryMetadata
    ∧ get_prop memoryMetadata "topics" = Normal (arr [VStr "a"; VStr "b"]).
Proof.
  destruct (create_keeps_topics
              Sample.world_ok Sample.request_create "user-1"
              Sample.create_body (VStr "hello") Sample.spoofed_metadata
              eq_refl eq_refl eq_refl eq_refl eq_refl eq_refl eq_refl)
    as (params & memoryMetadata & Hcalls & Hpassed & Hkept & _).
  exists params, memoryMetadata. split; [exact Hcalls|]. split; [exact Hpassed|].
  apply (Hkept ["a"; "b"]). reflexivity.
Defined.

(** *** Search reads one query parameter *)

Lemma searchParams_get_without_max_memories ps :
  searchParams_get (without_max_memories ps) "query" = searchParams_get ps "query".
Proof.
  induction ps as [|[k v] ps IH]; [reflexivity|].
  unfold without_max_memories in *. simpl.
  destruct (String.eqb_spec k "max_memories") as [->|Hne]; simpl.
  - exact IH.
  - now rewrite IH.
Qed.

(** GET looks at nothing of the request but the value of [query]. *)
Lemma GET_reads_query w request request' :
  searchParams_get (searchParams request') "query"
  = searchParams_get (searchParams request) "query" →
  GET w request' = GET w request.
Proof. intros Hquery. unfold GET. now rewrite Hquery. Qed.

(** C4. An authenticated Search with a non-empty [query] calls the remote
    search, once, with [{ query, user_id }] and the options
    [{ query: { max_memories: 25 } }]; and two requests that differ only in
    their [max_memories] parameter (its value, its presence, its position)
    run identically: same events, same call, same answer. *)
Theorem search_cap_is_fixed
    (w : world) (request : Request) (uid query : string) :
  caller w = Some uid →
  searchParams_get (searchParams request) "query" = Some query →
  String.eqb query "" = false →
  absent (env w !! "PAPR_MEMORY_API_KEY") = false →
  sdk_calls (trace (GET w request)) =
    [ MemorySearch
        (obj [("query", VStr query); ("user_id", VStr uid)])
        (obj [("query", obj [("max_memories", VNum 25)])]) ]
  ∧ (∀ request',
       without_max_memories (searchParams request')
       = without_max_memories (searchParams request) →
       GET w request' = GET w request).
Proof.
  intros Hcaller Hquery Hnonempty Hkey. split.
  - destruct (getPaprClient_present _ Hkey) as [client Hclient].
    assert (Hpresent : absent (searchParams_get (searchParams request) "query") = false)
      by now rewrite Hquery.
    pose proof (GET_reaches_search _ _ _ Hcaller _ Hpresent Hclient) as Hrun.
    simpl in Hrun. rewrite Hquery in Hrun. simpl in Hrun.
    now destruct (call_then_settle Search _ [_] _ _ _ Hrun eq_refl) as (Hcalls & _).
  - intros request' Hsame. apply GET_reads_query.
    rewrite <- (searchParams_get_without_max_memories (searchParams request')).
    rewrite Hsame. apply searchParams_get_without_max_memories.
Qed.

Lemma search_cap_is_fixed_witness :
  searchParams_get (searchParams Sample.request_search) "max_memories" = Some "3"
  ∧ searchParams_get (searchParams Sample.request_search_100) "max_memories" = Some "100"
  ∧ sdk_calls (trace (GET Sample.world_ok Sample.request_search)) =
      [ MemorySearch
          (obj [("query", VStr "cats"); ("user_id", VStr "user-1")])
          (obj [("query", obj [("max_memories", VNum 25)])]) ]
  ∧ GET Sample.world_ok Sample.request_search_100
    = GET Sample.world_ok Sample.request_search.
Proof.
  split; [reflexivity|]. split; [reflexivity|].
  destruct (search_cap_is_fixed
              Sample.world_ok Sample.request_search "user-1" "cats"
              eq_refl eq_refl eq_refl eq_refl) as [Hcall Hsame].
  split; [exact Hcall|]. apply Hsame. reflexivity.
Defined.

(** C5, as the code has it. When [PAPR_MEMORY_API_KEY] is absent (or
    empty), constructing the client throws. Each handler constructs it
    inside its [try] block, so the failure never leaves the handler: every
    request is answered with an HTTP response, no client is constructed and
    the SDK is not invoked; and an authenticated request that passes
    validation gets HTTP 500 with the operation's generic message, the
    configuration error going to [console.error] only. *)
Theorem missing_key_is_caught
    (op : operation) (w : world) (request : Request) :
  absent (env w !! "PAPR_MEMORY_API_KEY") = true →
  getPaprClient w = ([], Throw (Error "PAPR_MEMORY_API_KEY is not defined"))
  ∧ (∃ t response,
       handler op w request = (t, Normal response)
       ∧ Forall (λ ev, is_remote ev = false) t)
  ∧ (validated op w request = true →
     handler op w request =
       ([EvConsoleError (catch_label op) (Error "PAPR_MEMORY_API_KEY is not defined")],
        Normal {| status := 500; body := obj [("error", VStr (generic_message op))] |})).
Proof.
  intros Hkey. split; [now rewrite (getPaprClient_absent _ Hkey)|]. split.
  - destruct (handler_cases op w request)
      as [(t & response & Hrun & _ & _ & Hquiet)|(Hpresent & _)].
    + exists t, response. auto.
    + congruence.
  - unfold validated. destruct (caller w) as [uid|] eqn:Hcaller; [|discriminate].
    destruct op; simpl.
    + destruct (json request) as [body|] eqn:Hjson; [|discriminate].
      destruct (get_prop body "content") as [content|] eqn:Hcontent; [|discriminate].
      intros Htruthy.
      now rewrite (POST_without_key _ _ _ _ _ Hcaller Hjson Hcontent Htruthy Hkey).
    + intros Hquery%negb_true_iff.
      now rewrite (GET_without_key _ _ _ Hcaller Hquery Hkey).
    + intros Hid%negb_true_iff.
      now rewrite (DELETE_without_key _ _ _ Hcaller Hid Hkey).
    + destruct (json request) as [body|] eqn:Hjson; [|discriminate].
      destruct (get_prop body "memory_id") as [memory_id|] eqn:Hid; [|discriminate].
      intros Htruthy.
      now rewrite (PUT_without_key _ _ _ Hcaller _ _ Hjson Hid Htruthy Hkey).
Qed.

Lemma missing_key_is_caught_witness :
  env Sample.world_no_key !! "PAPR_MEMORY_API_KEY" = None
  ∧ validated Search Sample.world_no_key Sample.request_search = true
  ∧ GET Sample.world_no_key Sample.request_search =
      ([EvConsoleError "Error searching memories:" (Error "PAPR_MEMORY_API_KEY is not defined")],
       Normal {| status := 500; body := obj [("error", VStr "Failed to search memories")] |}).
Proof.
  split; [reflexivity|]. split; [reflexivity|].
  apply (missing_key_is_caught Search Sample.world_no_key Sample.request_search);
    reflexivity.
Defined.

(** C5, as the specification words it, fails: with the key absent, an
    authenticated Create with a content does not end in an unhandled
    exception; the caller gets a handled HTTP 500. *)
Lemma missing_key_is_not_unhandled :
  env Sample.world_no_key !! "PAPR_MEMORY_API_KEY" = None
  ∧ validated Create Sample.world_no_key Sample.request_create = true
  ∧ result (getPaprClient Sample.world_no_key)
    = Throw (Error "PAPR_MEMORY_API_KEY is not defined")
  ∧ result (POST Sample.world_no_key Sample.request_create)
    = Normal {| status := 500; body := obj [("error", VStr "Failed to add memory")] |}
  ∧ ¬ (∃ e, result (POST Sample.world_no_key Sample.request_create) = Throw e).
Proof.
  repeat split; try reflexivity.
  intros [e He]. discriminate He.
Qed.

(** ** The copy action *)

Section Copy.
Import ImageArtifact.
Variables (b : browser) (src : string).

(** What the load task does when the image loads. *)
Lemma run_loaded fuel width height :
  load_image b src = Some (width, height) →
  run (S (S fuel)) b [ImageLoad src] =
    (([ CreateCanvas; SetCanvasWidth width; SetCanvasHeight height; GetContext2d ]
        ++ (if has_2d_context b then [ DrawImage ] else [])
        ++ [ ToBlob "image/png" ]
        ++ match encode_canvas b width height "image/png" with
           | Some blob => [ ClipboardWrite "image/png" blob ]
           | None => []
           end)%list,
     []).
Proof.
  intros Hload. simpl. rewrite Hload. simpl.
  destruct (encode_canvas b width height "image/png"), fuel,
    (has_2d_context b); reflexivity.
Qed.

Lemma run_not_loaded fuel :
  load_image b src = None → run (S fuel) b [ImageLoad src] = ([], []).
Proof. intros Hload. simpl. rewrite Hload. now destruct fuel. Qed.
End Copy.

(** C10. Clicking the copy action emits the success toast in the click
    task itself, as its last effect, after the image was created and its
    [onload] set and before anything of the load or of the clipboard runs:
    those happen in later tasks. The toast is therefore shown in every
    browser, also when the image does not load (nothing else happens then)
    and when [toBlob] yields no blob (the clipboard is never written). *)
Theorem toast_before_copy (b : ImageArtifact.browser) (content : string) (fuel : nat) :
  let src := "data:image/png;base64," +:+ content in
  let clicked :=
    [ ImageArtifact.NewImage; ImageArtifact.SetSrc src; ImageArtifact.SetOnload;
      ImageArtifact.ToastSuccess "Copied image to clipboard!" ] in
  ImageArtifact.run_task b (ImageArtifact.Click content)
    = (clicked, [ImageArtifact.ImageLoad src])
  ∧ ∃ later,
      ImageArtifact.run (S (S (S fuel))) b [ImageArtifact.Click content]
        = ((clicked ++ later)%list, [])
      ∧ (ImageArtifact.load_image b src = None → later = [])
      ∧ (∀ width height,
           ImageArtifact.load_image b src = Some (width, height) →
           ImageArtifact.encode_canvas b width height "image/png" = None →
           List.filter ImageArtifact.is_clipboard_write later = []).
Proof.
  intros src clicked. split; [reflexivity|].
  exists (fst (ImageArtifact.run (S (S fuel)) b [ImageArtifact.ImageLoad src])).
  split; [|split].
  - change (ImageArtifact.run (S (S (S fuel))) b [ImageArtifact.Click content])
      with (let '(rest, pending) :=
              ImageArtifact.run (S (S fuel)) b [ImageArtifact.ImageLoad src] in
            ((clicked ++ rest)%list, pending)).
    destruct (ImageArtifact.load_image b src) as [[width height]|] eqn:Hload.
    + now rewrite (run_loaded b src fuel width height Hload).
    + now rewrite (run_not_loaded b src (S fuel) Hload).
  - intros Hload. now rewrite (run_not_loaded b src (S fuel) Hload).
  - intros width height Hload Hblob.
    rewrite (run_loaded b src fuel width height Hload), Hblob. simpl.
    now destruct (ImageArtifact.has_2d_context b).
Qed.

Lemma toast_before_copy_witness :
  ImageArtifact.run 3 Sample.broken_browser [ImageArtifact.Click "iVBORw0KGgo="] =
    ([ ImageArtifact.NewImage;
       ImageArtifact.SetSrc "data:image/png;base64,iVBORw0KGgo=";
       ImageArtifact.SetOnload;
       ImageArtifact.ToastSuccess "Copied image to clipboard!" ],
     []).
Proof.
  destruct (toast_before_copy Sample.broken_browser "iVBORw0KGgo=" 0)
    as (_ & later & Hrun & Hnothing & _).
  rewrite Hrun, (Hnothing eq_refl). reflexivity.
Defined.

(** * Further properties of the route *)

(** ** The client that is constructed *)

Lemma substring_all s m : (String.length s ≤ m)%nat → String.substring 0 m s = s.
Proof.
  revert m. induction s as [|c s IH]; intros [|m] Hlen; simpl in *; try lia.
  - reflexivity.
  - reflexivity.
  - now rewrite IH by lia.
Qed.

Lemma prefix_append p s : String.prefix p (p +:+ s) = true.
Proof.
  induction p as [|c p IH]; simpl; [now destruct s|].
  destruct (ascii_dec c c); [exact IH | congruence].
Qed.

Lemma substring_append p s m :
  (String.length s ≤ m)%nat → String.substring (String.length p) m (p +:+ s) = s.
Proof.
  intros Hlen. induction p as [|c p IH]; simpl; [now apply substring_all | exact IH].
Qed.

Lemma remove_first_unfold pat s :
  remove_first pat s =
    if String.prefix pat s
    then String.substring (String.length pat) (String.length s) s
    else match s with
         | EmptyString => EmptyString
         | String c s' => String c (remove_first pat s')
         end.
Proof. now destruct s. Qed.

(** Removing a leading [pat]. *)
Lemma remove_first_prefix pat s : remove_first pat (pat +:+ s) = s.
Proof.
  rewrite remove_first_unfold, prefix_append. apply substring_append.
  induction pat as [|c pat IH]; [reflexivity|].
  change (String c pat +:+ s) with (String c (pat +:+ s)). simpl. lia.
Qed.

(** What [getPaprClient] returns when it returns. *)
Lemma getPaprClient_returns w client :
  getPaprClient w = after [EvNewPapr client] (ret client) →
  env w !! "PAPR_MEMORY_API_KEY" = Some (xAPIKey client)
  ∧ String.prefix "https://" (baseURL client) = true.
Proof.
  unfold getPaprClient.
  destruct (env w !! "PAPR_MEMORY_API_KEY") as [key|] eqn:Hkey; simpl; [|discriminate].
  destruct (String.eqb key ""); [discriminate|].
  rewrite bind_emit, after_ret. unfold after; simpl. intros [= <-]. simpl.
  split; [reflexivity|].
  destruct (String.prefix "https://" _) eqn:Hprefix; [assumption | apply prefix_append].
Qed.

(** ** Every run of a handler, path by path *)

Lemma settle_cases op c :
  (∃ response data,
      c = Normal response
      ∧ match op with
        | Create | Search => get_prop response "data" = Normal data
        | Delete | Update => data = response
        end
      ∧ settle op c = ret (NextResponse_json (success_body data) 200))
  ∨ (∃ e, settle op c = caught op e).
Proof.
  unfold settle. destruct c as [response|e]; js; [|right; eauto].
  destruct op; js; try (left; eexists _, _; repeat split; reflexivity);
    (destruct (get_prop response "data") as [data|e] eqn:Hdata; js;
     [left; eexists _, _; repeat split; eauto | right; eauto]).
Qed.

(** The five ways a handler runs: it answers 401 or 400 at once; its
    [catch] answers before a client exists; its [catch] answers after the
    client was constructed; or it calls the SDK with the client it
    constructed and settles. *)
Lemma handler_paths op w request :
  (∃ response,
      handler op w request = ret response
      ∧ (status response = 401 ∨ status response = 400))
  ∨ (∃ e, handler op w request = caught op e)
  ∨ (∃ client e,
       getPaprClient w = after [EvNewPapr client] (ret client)
       ∧ handler op w request = after [EvNewPapr client] (caught op e))
  ∨ (∃ client logs call,
       getPaprClient w = after [EvNewPapr client] (ret client)
       ∧ Forall (λ ev, is_remote ev = false) logs
       ∧ handler op w request =
           after (EvNewPapr client :: logs ++ [EvSdk client call])
             (settle op (sdk w client call))).
Proof.
  destruct (auth w) as [session|e] eqn:Hauth.
  2: { right; left. eexists. apply (handler_auth_throws _ _ _ _ Hauth). }
  destruct (session_user_id session) as [uid|] eqn:Hsession.
  2: { left. eexists. split; [apply (handler_unauthorized _ _ _ _ Hauth Hsession)|].
       now left. }
  assert (Hcaller : caller w = Some uid) by (unfold caller; now rewrite Hauth).
  destruct op; simpl.
  - destruct (json request) as [body|e] eqn:Hjson.
    2: { right; left. eexists. apply (POST_json_throws _ _ _ Hcaller _ Hjson). }
    destruct (get_prop body "content") as [content|e] eqn:Hcontent.
    2: { right; left. eexists. apply (POST_body_throws _ _ _ Hcaller _ _ Hjson Hcontent). }
    destruct (truthy content) eqn:Htruthy.
    2: { left. eexists. split;
           [apply (POST_content_required _ _ _ _ _ Hcaller Hjson Hcontent Htruthy)|].
         now right. }
    destruct (absent (env w !! "PAPR_MEMORY_API_KEY")) eqn:Hkey.
    { right; left. eexists.
      apply (POST_without_key _ _ _ _ _ Hcaller Hjson Hcontent Htruthy Hkey). }
    destruct (getPaprClient_present _ Hkey) as [client Hclient].
    destruct (get_prop_defined _ _ _ "metadata" Hcontent) as [metadata Hmetadata].
    destruct (is_object (default_to (obj []) metadata)) eqn:Hshape.
    + destruct (POST_reaches_add _ _ _ _ _ Hcaller Hjson Hcontent Htruthy
                  _ _ Hclient Hmetadata Hshape)
        as (type & log & memoryMetadata & customMetadata & Hrun & _).
      right; right; right. exists client, [EvConsoleLog "[Memory API] Adding memory:" log].
      eexists. split; [exact Hclient|]. split; [repeat constructor|]. exact Hrun.
    + destruct (POST_metadata_rejected _ _ _ _ _ Hcaller Hjson Hcontent Htruthy
                  _ _ Hclient Hmetadata Hshape) as [e Hrun].
      right; right; left. eauto.
  - destruct (absent (searchParams_get (searchParams request) "query")) eqn:Hquery.
    { left. eexists. split; [apply (GET_query_required _ _ _ Hcaller Hquery)|]. now right. }
    destruct (absent (env w !! "PAPR_MEMORY_API_KEY")) eqn:Hkey.
    { right; left. eexists. apply (GET_without_key _ _ _ Hcaller Hquery Hkey). }
    destruct (getPaprClient_present _ Hkey) as [client Hclient].
    right; right; right. exists client, []. eexists.
    split; [exact Hclient|]. split; [constructor|].
    apply (GET_reaches_search _ _ _ Hcaller _ Hquery Hclient).
  - destruct (absent (searchParams_get (searchParams request) "id")) eqn:Hid.
    { left. eexists. split; [apply (DELETE_id_required _ _ _ Hcaller Hid)|]. now right. }
    destruct (absent (env w !! "PAPR_MEMORY_API_KEY")) eqn:Hkey.
    { right; left. eexists. apply (DELETE_without_key _ _ _ Hcaller Hid Hkey). }
    destruct (getPaprClient_present _ Hkey) as [client Hclient].
    right; right; right. exists client, []. eexists.
    split; [exact Hclient|]. split; [constructor|].
    apply (DELETE_reaches_delete _ _ _ Hcaller _ Hid Hclient).
  - destruct (json request) as [body|e] eqn:Hjson.
    2: { right; left. eexists. apply (PUT_json_throws _ _ _ Hcaller _ Hjson). }
    destruct (get_prop body "memory_id") as [memory_id|e] eqn:Hid.
    2: { right; left. eexists. apply (PUT_body_throws _ _ _ Hcaller _ _ Hjson Hid). }
    destruct (truthy memory_id) eqn:Htruthy.
    2: { left. eexists. split;
           [apply (PUT_id_required _ _ _ Hcaller _ _ Hjson Hid Htruthy)|]. now right. }
    destruct (absent (env w !! "PAPR_MEMORY_API_KEY")) eqn:Hkey.
    { right; left. eexists.
      apply (PUT_without_key _ _ _ Hcaller _ _ Hjson Hid Htruthy Hkey). }
    destruct (getPaprClient_present _ Hkey) as [client Hclient].
    destruct (PUT_reaches_update _ _ _ Hcaller _ _ Hjson Hid _ Htruthy Hclient)
      as [params Hrun].
    right; right; right. exists client, []. eexists.
    split; [exact Hclient|]. split; [constructor|]. exact Hrun.
Qed.

(** X1. A handler never lets an exception escape: every request, to any of
    the four handlers, in any world, is answered, and the status is 200,
    400, 401 or 500. A 200 is answered only after the SDK call was made and
    fulfilled. *)
Theorem handler_always_answers (op : operation) (w : world) (request : Request) :
  ∃ t response,
    handler op w request = (t, Normal response)
    ∧ In (status response) [200; 400; 401; 500]
    ∧ (status response = 200 →
       ∃ client call v, In (EvSdk client call) t ∧ sdk w client call = Normal v).
Proof.
  destruct (handler_paths op w request)
    as [(response & -> & Hstatus)
       |[(e & ->)
        |[(client & e & _ & ->)
         |(client & logs & call & _ & _ & ->)]]].
  - exists [], response. split; [reflexivity|]. split.
    + destruct Hstatus as [-> | ->]; simpl; auto.
    + intros H200. destruct Hstatus; congruence.
  - eexists _, _. split; [reflexivity|]. split; [simpl; auto|discriminate].
  - eexists _, _. split; [reflexivity|]. split; [simpl; auto|discriminate].
  - destruct (settle_cases op (sdk w client call))
      as [(v & data & Hsdk & _ & ->)|(e & ->)].
    + rewrite after_ret. eexists _, _. split; [reflexivity|]. split; [simpl; auto|].
      intros _. exists client, call, v. split; [|exact Hsdk].
      apply in_cons, in_or_app. right. now left.
    + eexists _, _. split; [reflexivity|]. split; [simpl; auto|discriminate].
Qed.

Lemma handler_always_answers_witness :
  ∃ t response,
    handler Delete Sample.world_ok Sample.request_delete = (t, Normal response)
    ∧ status response = 200
    ∧ ∃ client call v,
        In (EvSdk client call) t ∧ sdk Sample.world_ok client call = Normal v.
Proof.
  destruct (handler_always_answers Delete Sample.world_ok Sample.request_delete)
    as (t & response & Hrun & _ & Hfulfilled).
  exists t, response. split; [exact Hrun|].
  assert (H200 : status response = 200).
  { assert (Hanswer : result (handler Delete Sample.world_ok Sample.request_delete)
                      = Normal response) by now rewrite Hrun.
    vm_compute in Hanswer. now injection Hanswer as <-. }
  split; [exact H200 | exact (Hfulfilled H200)].
Defined.

(** X2. An SDK call is always made with the client this very request
    constructed, from the configured key and over https: the trace is the
    construction of that client, at most console output, the call, and at
    most console output again. So a request constructs one client and
    makes one call at most. *)
Theorem sdk_call_uses_configured_client
    (op : operation) (w : world) (request : Request) (client : Papr) (call : sdk_call) :
  In (EvSdk client call) (trace (handler op w request)) →
  ∃ logs post,
    trace (handler op w request)
      = (EvNewPapr client :: logs ++ EvSdk client call :: post)%list
    ∧ Forall (λ ev, is_remote ev = false) logs
    ∧ Forall (λ ev, is_remote ev = false) post
    ∧ env w !! "PAPR_MEMORY_API_KEY" = Some (xAPIKey client)
    ∧ String.prefix "https://" (baseURL client) = true.
Proof.
  destruct (handler_paths op w request)
    as [(response & -> & _)
       |[(e & ->)
        |[(client' & e & _ & ->)
         |(client' & logs & call' & Hclient & Hlogs & ->)]]].
  - intros [].
  - intros [Hin|[]]. discriminate.
  - intros [Hin|[Hin|[]]]; discriminate.
  - destruct (settle_quiet op (sdk w client' call')) as (post & response & -> & Hpost).
    unfold after, trace; simpl. intros [Hin|Hin]; [discriminate|].
    rewrite <- app_assoc in Hin. simpl in Hin.
    assert (Heq : client = client' ∧ call = call').
    { apply in_app_or in Hin as [Hin|[Hin|Hin]].
      - rewrite Forall_forall in Hlogs. apply list_elem_of_In, Hlogs in Hin. discriminate.
      - split; congruence.
      - rewrite Forall_forall in Hpost.
        apply list_elem_of_In, Hpost in Hin. discriminate. }
    destruct Heq as [-> ->]. exists logs, post.
    split; [now rewrite <- app_assoc|].
    split; [exact Hlogs|]. split; [exact Hpost|].
    apply (getPaprClient_returns _ _ Hclient).
Qed.

Lemma sdk_call_uses_configured_client_witness :
  ∃ logs post,
    trace (DELETE MoreSamples.world_http Sample.request_delete)
      = (EvNewPapr {| xAPIKey := "secret"; baseURL := "https://memory.internal:8080" |}
           :: logs
           ++ EvSdk {| xAPIKey := "secret"; baseURL := "https://memory.internal:8080" |}
                (MemoryDelete "m-42")
           :: post)%list
    ∧ Forall (λ ev, is_remote ev = false) logs
    ∧ Forall (λ ev, is_remote ev = false) post.
Proof.
  destruct (sdk_call_uses_configured_client
              Delete MoreSamples.world_http Sample.request_delete
              {| xAPIKey := "secret"; baseURL := "https://memory.internal:8080" |}
              (MemoryDelete "m-42"))
    as (logs & post & Htrace & Hlogs & Hpost & _).
  - simpl. right. left. reflexivity.
  - exists logs, post. auto.
Defined.

(** X3. Nothing remote happens for a request that is not both
    authenticated and valid: when the caller is unknown, the body cannot be
    read, or the required field is missing, no client is constructed and
    the SDK is not called. *)
Theorem no_remote_event_unless_validated
    (op : operation) (w : world) (request : Request) :
  validated op w request = false →
  Forall (λ ev, is_remote ev = false) (trace (handler op w request)).
Proof.
  unfold validated, caller.
  destruct (auth w) as [session|e] eqn:Hauth.
  2: { intros _. rewrite (handler_auth_throws _ _ _ _ Hauth). repeat constructor. }
  destruct (session_user_id session) as [uid|] eqn:Hsession.
  2: { intros _. rewrite (handler_unauthorized _ _ _ _ Hauth Hsession). constructor. }
  assert (Hcaller : caller w = Some uid) by (unfold caller; now rewrite Hauth).
  destruct op; simpl.
  - destruct (json request) as [body|e] eqn:Hjson.
    2: { intros _. rewrite (POST_json_throws _ _ _ Hcaller _ Hjson). repeat constructor. }
    destruct (get_prop body "content") as [content|e] eqn:Hcontent.
    2: { intros _. rewrite (POST_body_throws _ _ _ Hcaller _ _ Hjson Hcontent).
         repeat constructor. }
    intros Hfalsy.
    rewrite (POST_content_required _ _ _ _ _ Hcaller Hjson Hcontent Hfalsy). constructor.
  - intros Hquery%negb_false_iff.
    rewrite (GET_query_required _ _ _ Hcaller Hquery). constructor.
  - intros Hid%negb_false_iff.
    rewrite (DELETE_id_required _ _ _ Hcaller Hid). constructor.
  - destruct (json request) as [body|e] eqn:Hjson.
    2: { intros _. rewrite (PUT_json_throws _ _ _ Hcaller _ Hjson). repeat constructor. }
    destruct (get_prop body "memory_id") as [memory_id|e] eqn:Hid.
    2: { intros _. rewrite (PUT_body_throws _ _ _ Hcaller _ _ Hjson Hid).
         repeat constructor. }
    intros Hfalsy.
    rewrite (PUT_id_required _ _ _ Hcaller _ _ Hjson Hid Hfalsy). constructor.
Qed.

Lemma no_remote_event_unless_validated_witness :
  validated Create Sample.world_ok Sample.request_unparseable = false
  ∧ Forall (λ ev, is_remote ev = false)
      (trace (POST Sample.world_ok Sample.request_unparseable)).
Proof.
  split; [reflexivity|].
  apply (no_remote_event_unless_validated
           Create Sample.world_ok Sample.request_unparseable).
  reflexivity.
Defined.

(** X4. An authenticated Search without a [query] parameter, or with an
    empty one, is answered with HTTP 400 and the body
    [{ error: "Query parameter is required" }], without any event. *)
Theorem search_requires_query (w : world) (request : Request) (uid : string) :
  caller w = Some uid →
  absent (searchParams_get (searchParams request) "query") = true →
  GET w request =
    ([], Normal {| status := 400;
                   body := obj [("error", VStr "Query parameter is required")] |}).
Proof.
  intros Hcaller Hquery. now rewrite (GET_query_required _ _ _ Hcaller Hquery).
Qed.

Lemma search_requires_query_witness :
  searchParams_get (searchParams Sample.request_delete) "query" = None
  ∧ GET Sample.world_ok Sample.request_delete =
      ([], Normal {| status := 400;
                     body := obj [("error", VStr "Query parameter is required")] |}).
Proof.
  split; [reflexivity|].
  apply (search_requires_query Sample.world_ok Sample.request_delete "user-1");
    reflexivity.
Defined.

(** X5. With a key configured, [getPaprClient] constructs a client that
    carries that key and a base URL starting with [https://]: the
    production endpoint when [PAPR_MEMORY_API_URL] is unset or empty, the
    configured URL itself when it is an https URL, and [https://host] when
    it is [http://host]. *)
Theorem client_is_secure (w : world) :
  absent (env w !! "PAPR_MEMORY_API_KEY") = false →
  ∃ client,
    getPaprClient w = ([EvNewPapr client], Normal client)
    ∧ env w !! "PAPR_MEMORY_API_KEY" = Some (xAPIKey client)
    ∧ String.prefix "https://" (baseURL client) = true
    ∧ (absent (env w !! "PAPR_MEMORY_API_URL") = true →
       baseURL client = "https://memory.papr.ai")
    ∧ (∀ url, env w !! "PAPR_MEMORY_API_URL" = Some url →
              String.prefix "https://" url = true → baseURL client = url)
    ∧ (∀ host, env w !! "PAPR_MEMORY_API_URL" = Some ("http://" +:+ host) →
               baseURL client = "https://" +:+ host).
Proof.
  intros Hkey. destruct (getPaprClient_present _ Hkey) as [client Hclient].
  destruct (getPaprClient_returns _ _ Hclient) as [Hconfigured Hsecure].
  exists client. rewrite Hclient, after_ret.
  split; [reflexivity|]. split; [exact Hconfigured|]. split; [exact Hsecure|].
  revert Hclient. unfold getPaprClient. rewrite Hkey, bind_emit, !after_ret.
  intros [= <-]. simpl. split; [|split].
  - now intros ->.
  - intros url -> Hhttps.
    assert (Hset : absent (Some url) = false).
    { destruct url; [discriminate Hhttps | reflexivity]. }
    rewrite Hset. simpl. now rewrite Hhttps.
  - intros host ->.
    change (absent (Some ("http://" +:+ host))) with false.
    change (default "" (Some ("http://" +:+ host))) with ("http://" +:+ host).
    cbv iota.
    change (String.prefix "https://" ("http://" +:+ host)) with false.
    cbv iota. now rewrite remove_first_prefix.
Qed.

Lemma client_is_secure_witness :
  ∃ client,
    getPaprClient MoreSamples.world_http = ([EvNewPapr client], Normal client)
    ∧ baseURL client = "https://memory.internal:8080".
Proof.
  destruct (client_is_secure MoreSamples.world_http eq_refl)
    as (client & Hrun & _ & _ & _ & _ & Hhttp).
  exists client. split; [exact Hrun|].
  apply (Hhttp "memory.internal:8080"). reflexivity.
Defined.

(** X6. When the SDK call of a handler is fulfilled, the answer is HTTP 200
    with [{ success: true, data }]: for Create and Search [data] is the
    [data] property of the SDK's response, and a response that is
    [undefined] or [null] ends in the 500 of the [catch]; for Delete and
    Update [data] is the response itself. *)
Theorem fulfilled_call_is_wrapped
    (op : operation) (w : world) (request : Request)
    (client : Papr) (call : sdk_call) (response : value) :
  In (EvSdk client call) (trace (handler op w request)) →
  sdk w client call = Normal response →
  result (handler op w request) =
    match op with
    | Create | Search =>
        match get_prop response "data" with
        | Normal data =>
            Normal {| status := 200;
                      body := obj [("success", VBool true); ("data", data)] |}
        | Throw _ =>
            Normal {| status := 500; body := obj [("error", VStr (generic_message op))] |}
        end
    | Delete | Update =>
        Normal {| status := 200;
                  body := obj [("success", VBool true); ("data", response)] |}
    end.
Proof.
  intros Hin Hsdk.
  destruct (handler_cases op w request)
    as [(t & answer & Hrun & Hnone & _)|(_ & pre & client' & call' & Hrun & Hpre)].
  - rewrite Hrun in Hin. now apply no_call_not_In in Hin.
  - destruct (call_then_settle _ _ _ _ _ _ Hrun Hpre) as (_ & Honly & _ & ->).
    destruct (Honly _ _ Hin) as [<- <-]. rewrite Hsdk.
    unfold settle. js. destruct op; js; try reflexivity;
      destruct (get_prop response "data"); now js.
Qed.

Lemma fulfilled_call_is_wrapped_witness :
  result (GET Sample.world_ok Sample.request_search) =
    Normal {| status := 200;
              body := obj [("success", VBool true);
                           ("data", obj [("memory_id", VStr "m-42")])] |}.
Proof.
  apply (fulfilled_call_is_wrapped
           Search Sample.world_ok Sample.request_search
           {| xAPIKey := "secret"; baseURL := "https://memory.papr.ai" |}
           (MemorySearch
              (obj [("query", VStr "cats"); ("user_id", VStr "user-1")])
              (obj [("query", obj [("max_memories", VNum 25)])]))
           Sample.stored).
  - simpl. right. left. reflexivity.
  - reflexivity.
Defined.

(** ** What Update and Delete pass on *)

Lemma PUT_forwards w request uid body memory_id content metadata type client :
  caller w = Some uid →
  json request = Normal body →
  get_prop body "memory_id" = Normal memory_id →
  get_prop body "content" = Normal content →
  get_prop body "metadata" = Normal metadata →
  get_prop body "type" = Normal type →
  truthy memory_id = true →
  getPaprClient w = after [EvNewPapr client] (ret client) →
  let call :=
    MemoryUpdate memory_id
      (obj [("content", content); ("metadata", metadata); ("type", type)]) in
  PUT w request =
    after [ EvNewPapr client; EvSdk client call ] (settle Update (sdk w client call)).
Proof.
  intros Hcaller Hjson Hid Hcontent Hmetadata Htype Htruthy Hclient.
  destruct (caller_Some _ _ Hcaller) as (session & Hauth & Hsession).
  unfold PUT. rewrite Hauth. js. rewrite Hsession, Hjson. js.
  rewrite Hid. js. rewrite Hcontent. js. rewrite Hmetadata. js. rewrite Htype. js.
  rewrite Htruthy, Hclient. now js.
Qed.

(** X7. An accepted Update passes the body's [content], [metadata] and
    [type] to the remote [update] exactly as the client sent them, under
    the [memory_id] the client sent: nothing is derived from the session,
    so a [metadata.user_id] naming somebody else goes through unchanged. *)
Theorem update_forwards_unchanged
    (w : world) (request : Request) (uid : string)
    (body memory_id content metadata type : value) :
  caller w = Some uid →
  json request = Normal body →
  get_prop body "memory_id" = Normal memory_id →
  get_prop body "content" = Normal content →
  get_prop body "metadata" = Normal metadata →
  get_prop body "type" = Normal type →
  truthy memory_id = true →
  absent (env w !! "PAPR_MEMORY_API_KEY") = false →
  sdk_calls (trace (PUT w request)) =
    [ MemoryUpdate memory_id
        (obj [("content", content); ("metadata", metadata); ("type", type)]) ].
Proof.
  intros Hcaller Hjson Hid Hcontent Hmetadata Htype Htruthy Hkey.
  destruct (getPaprClient_present _ Hkey) as [client Hclient].
  pose proof (PUT_forwards _ _ _ _ _ _ _ _ _ Hcaller Hjson Hid Hcontent Hmetadata
                Htype Htruthy Hclient) as Hrun.
  now destruct (call_then_settle Update _ [_] _ _ _ Hrun eq_refl) as (Hcalls & _).
Qed.

Lemma update_forwards_unchanged_witness :
  caller Sample.world_ok = Some "user-1"
  ∧ sdk_calls (trace (PUT Sample.world_ok MoreSamples.request_update)) =
      [ MemoryUpdate (VStr "m-42")
          (obj [ ("content", VStr "edited");
                 ("metadata", obj [("user_id", VStr "mallory")]);
                 ("type", VUndefined) ]) ].
Proof.
  split; [reflexivity|].
  apply (update_forwards_unchanged
           Sample.world_ok MoreSamples.request_update "user-1"
           MoreSamples.update_body);
    reflexivity.
Defined.

(** X8. An accepted Delete passes the [id] parameter to the remote
    [delete] as it is, and nothing else: the call does not depend on who
    the caller is. *)
Theorem delete_forwards_id (w : world) (request : Request) (uid id : string) :
  caller w = Some uid →
  searchParams_get (searchParams request) "id" = Some id →
  String.eqb id "" = false →
  absent (env w !! "PAPR_MEMORY_API_KEY") = false →
  sdk_calls (trace (DELETE w request)) = [ MemoryDelete id ].
Proof.
  intros Hcaller Hid Hnonempty Hkey.
  destruct (getPaprClient_present _ Hkey) as [client Hclient].
  assert (Hpresent : absent (searchParams_get (searchParams request) "id") = false)
    by now rewrite Hid.
  pose proof (DELETE_reaches_delete _ _ _ Hcaller _ Hpresent Hclient) as Hrun.
  simpl in Hrun. rewrite Hid in Hrun. simpl in Hrun.
  now destruct (call_then_settle Delete _ [_] _ _ _ Hrun eq_refl) as (Hcalls & _).
Qed.

Lemma delete_forwards_id_witness :
  sdk_calls (trace (DELETE Sample.world_ok Sample.request_delete)) = [ MemoryDelete "m-42" ].
Proof.
  apply (delete_forwards_id Sample.world_ok Sample.request_delete "user-1" "m-42");
    reflexivity.
Defined.

(** ** Failures before the SDK is reached *)

(** X9. When the auth provider itself fails, each handler answers HTTP 500
    with its generic message, not 401; the failure is logged and nothing
    remote happens. *)
Theorem auth_failure_is_500 (op : operation) (w : world) (request : Request) (e : exn) :
  auth w = Throw e →
  handler op w request =
    ([EvConsoleError (catch_label op) e],
     Normal {| status := 500; body := obj [("error", VStr (generic_message op))] |}).
Proof. intros Hauth. now rewrite (handler_auth_throws _ _ _ _ Hauth). Qed.

Lemma auth_failure_is_500_witness :
  GET MoreSamples.world_auth_down Sample.request_search =
    ([EvConsoleError "Error searching memories:" MoreSamples.auth_down],
     Normal {| status := 500; body := obj [("error", VStr "Failed to search memories")] |}).
Proof.
  apply (auth_failure_is_500
           Search MoreSamples.world_auth_down Sample.request_search MoreSamples.auth_down).
  reflexivity.
Defined.

(** X10. A Create whose [metadata] is neither an object nor absent (a
    string, a number, a boolean, [null]) is not rejected as invalid: the
    client is constructed, reading or setting [customMetadata] throws, and
    the answer is the 500 of the [catch]; the SDK is not called. *)
Theorem create_rejects_primitive_metadata
    (w : world) (request : Request) (uid : string) (body content metadata : value) :
  caller w = Some uid →
  json request = Normal body →
  get_prop body "content" = Normal content →
  truthy content = true →
  get_prop body "metadata" = Normal metadata →
  is_object (default_to (obj []) metadata) = false →
  absent (env w !! "PAPR_MEMORY_API_KEY") = false →
  ∃ client e,
    POST w request =
      ([EvNewPapr client; EvConsoleError "Error adding memory:" e],
       Normal {| status := 500; body := obj [("error", VStr "Failed to add memory")] |}).
Proof.
  intros Hcaller Hjson Hcontent Htruthy Hmetadata Hshape Hkey.
  destruct (getPaprClient_present _ Hkey) as [client Hclient].
  destruct (POST_metadata_rejected _ _ _ _ _ Hcaller Hjson Hcontent Htruthy
              _ _ Hclient Hmetadata Hshape) as [e ->].
  now exists client, e.
Qed.

Lemma create_rejects_primitive_metadata_witness :
  ∃ client e,
    POST Sample.world_ok MoreSamples.request_create_text_metadata =
      ([EvNewPapr client; EvConsoleError "Error adding memory:" e],
       Normal {| status := 500; body := obj [("error", VStr "Failed to add memory")] |}).
Proof.
  apply (create_rejects_primitive_metadata
           Sample.world_ok MoreSamples.request_create_text_metadata "user-1"
           (obj [("content", VStr "hello"); ("metadata", VStr "notes")])
           (VStr "hello") (VStr "notes"));
    reflexivity.
Defined.

(** ** Strings in code units *)

(** A string has as many elements as its [length] says. *)
Lemma chars_length s : length (chars s) = utf16_length s.
Proof.
  unfold chars. rewrite length_fmap.
  induction s as [|c s IH]; [reflexivity|].
  simpl. destruct (code_points s) as [pending found]. simpl in IH.
  unfold utf16_units. destruct (is_continuation c) eqn:Hc; simpl.
  - exact IH.
  - rewrite length_app. unfold fmap in IH. rewrite IH.
    now destruct (byte_code c <? 240).
Qed.

(** Five characters in six bytes, and one character in two code units. *)
Example length_counts_code_units :
  get_prop (VStr "héllo") "length" = Normal (VNum 5)
  ∧ get_prop (VStr "😀") "length" = Normal (VNum 2)
  ∧ spread (VStr "né") = {[ "0" := VStr "n"; "1" := VStr "é" ]}.
Proof. repeat split; reflexivity. Qed.

(** ** What Create passes on *)

Lemma assoc_not_in k (fields : list (string * value)) :
  ¬ In k (map fst fields) → assoc k fields = None.
Proof.
  induction fields as [|[k' v] fields IH]; simpl; [reflexivity|].
  intros Hnot. destruct (String.eqb_spec k' k) as [->|_]; [tauto|].
  apply IH. tauto.
Qed.

(** The named own properties of an object or an array. *)
Lemma object_props md :
  is_object md = true →
  ∃ props : gmap string value,
    (∀ k, String.eqb k "length" = false →
          get_prop md k = Normal (default VUndefined (props !! k)))
    ∧ ∀ k v, ∃ md',
        set_prop md k v = Normal md'
        ∧ ∀ k', String.eqb k' "length" = false →
                get_prop md' k' = Normal (default VUndefined (<[k:=v]> props !! k')).
Proof.
  destruct md as [| | | | |items props|props]; try discriminate; intros _; exists props.
  - split; [intros k Hk; now apply get_prop_VArr|].
    intros k v. eexists. split; [reflexivity|]. intros k' Hk'. now apply get_prop_VArr.
  - split; [reflexivity|]. intros k v. eexists. split; reflexivity.
Qed.

(** The path of POST that reaches the SDK, field by field. *)
Lemma POST_passes w request uid body content type metadata client :
  caller w = Some uid →
  json request = Normal body →
  get_prop body "content" = Normal content →
  truthy content = true →
  get_prop body "type" = Normal type →
  get_prop body "metadata" = Normal metadata →
  getPaprClient w = after [EvNewPapr client] (ret client) →
  is_object (default_to (obj []) metadata) = true →
  ∃ (props : gmap string value) log memoryMetadata,
    let params :=
      obj [ ("content", content);
            ("type", default_to (VStr "text") type);
            ("metadata", memoryMetadata) ] in
    let supplied := default VUndefined (props !! "customMetadata") in
    (∀ k, String.eqb k "length" = false →
          get_prop (default_to (obj []) metadata) k
          = Normal (default VUndefined (props !! k)))
    ∧ POST w request =
        after [ EvNewPapr client;
                EvConsoleLog "[Memory API] Adding memory:" log;
                EvSdk client (MemoryAdd params) ]
          (settle Create (sdk w client (MemoryAdd params)))
    ∧ memoryMetadata =
        obj [ ("sourceType",
                or_else (default VUndefined (props !! "sourceType")) (VStr "PaprChat"));
              ("user_id", VStr uid);
              ("external_user_id", VStr uid);
              ("createdAt",
                or_else (default VUndefined (props !! "createdAt")) (VStr (now w)));
              ("sourceUrl", default VUndefined (props !! "sourceUrl"));
              ("conversationId", default VUndefined (props !! "conversationId"));
              ("topics", or_else (default VUndefined (props !! "topics")) (arr []));
              ("emoji tags", or_else (default VUndefined (props !! "emoji tags")) (arr []));
              ("hierarchical_structures",
                default VUndefined (props !! "hierarchical_structures"));
              ("workspace_id", default VUndefined (props !! "workspace_id"));
              ("customMetadata",
                VObj (<["app_user_id" := VStr uid]>
                     (<["api_source" := VStr "memory_route"]>
                     (spread (if truthy supplied then supplied else obj []))))) ]
    ∧ ∀ contentLength,
        get_prop content "length" = Normal contentLength →
        log =
          obj [ ("type", default_to (VStr "text") type);
                ("contentLength", contentLength);
                ("metadata",
                  obj [ ("sourceType",
                          or_else (default VUndefined (props !! "sourceType"))
                            (VStr "PaprChat"));
                        ("createdAt",
                          or_else (default VUndefined (props !! "createdAt"))
                            (VStr (now w)));
                        ("topics",
                          or_else (default VUndefined (props !! "topics")) (arr []));
                        ("hierarchical_structures",
                          default VUndefined (props !! "hierarchical_structures"));
                        ("customMetadata",
                          VObj (<["app_user_id" := VStr uid]>
                               (<["api_source" := VStr "memory_route"]>
                               (spread (if truthy supplied then supplied
                                        else obj []))))) ]) ].
Proof.
  intros Hcaller Hjson Hcontent Htruthy Htype Hmetadata Hclient Hshape.
  destruct (caller_Some _ _ Hcaller) as (session & Hauth & Hsession).
  destruct (object_props _ Hshape) as (props & Hget & Hset).
  destruct (Hset "customMetadata" (obj [])) as (md' & Hset' & Hget').
  destruct (get_prop_truthy _ "length" Htruthy) as [contentLength HcontentLength].
  exists props.
  unfold POST. rewrite Hauth. js. rewrite Hsession, Hjson. js.
  rewrite Hcontent. js. rewrite Htype. js. rewrite Hmetadata. js.
  rewrite Htruthy, Hclient. js.
  rewrite (Hget "customMetadata") by reflexivity. js.
  destruct (truthy (default VUndefined (props !! "customMetadata"))) eqn:Hsupplied; simpl.
  - js. rewrite !Hget by reflexivity. js. rewrite HcontentLength. js.
    eexists _, _. split; [exact Hget|]. split; [reflexivity|]. split; [reflexivity|].
    intros ? [= <-]. reflexivity.
  - rewrite Hset'. js. rewrite !Hget' by reflexivity. js. rewrite HcontentLength. js.
    rewrite lookup_insert_eq, !lookup_insert_ne by discriminate. simpl.
    eexists _, _. split; [exact Hget|]. split; [reflexivity|]. split; [reflexivity|].
    intros ? [= <-]. reflexivity.
Qed.

Section Accepted.
Variables (w : world) (request : Request) (uid : string).
Variables (body content type metadata : value).
Hypothesis Hcaller : caller w = Some uid.
Hypothesis Hjson : json request = Normal body.
Hypothesis Hcontent : get_prop body "content" = Normal content.
Hypothesis Htruthy : truthy content = true.
Hypothesis Htype : get_prop body "type" = Normal type.
Hypothesis Hmetadata : get_prop body "metadata" = Normal metadata.
Hypothesis Hshape : is_object (default_to (obj []) metadata) = true.
Hypothesis Hkey : absent (env w !! "PAPR_MEMORY_API_KEY") = false.

(** X11. An accepted Create passes [content] as it is and fills in what the
    client left out: [type] is ["text"] when it is absent, [sourceType] is
    ["PaprChat"] and [createdAt] the current time when the client's value
    is missing or falsy, and ["emoji tags"] is the empty list when missing;
    a value the client did give for them is kept.  [app_user_id] in
    [customMetadata] is the caller's id. *)
Theorem create_fills_defaults :
  ∃ params memoryMetadata customMetadata,
    sdk_calls (trace (POST w request)) = [MemoryAdd params]
    ∧ get_prop params "content" = Normal content
    ∧ get_prop params "type" = Normal (default_to (VStr "text") type)
    ∧ get_prop params "metadata" = Normal memoryMetadata
    ∧ (∀ x, get_prop (default_to (obj []) metadata) "sourceType" = Normal x →
            get_prop memoryMetadata "sourceType" = Normal (or_else x (VStr "PaprChat")))
    ∧ (∀ x, get_prop (default_to (obj []) metadata) "createdAt" = Normal x →
            get_prop memoryMetadata "createdAt" = Normal (or_else x (VStr (now w))))
    ∧ (∀ x, get_prop (default_to (obj []) metadata) "emoji tags" = Normal x →
            get_prop memoryMetadata "emoji tags" = Normal (or_else x (arr [])))
    ∧ get_prop memoryMetadata "customMetadata" = Normal customMetadata
    ∧ get_prop customMetadata "app_user_id" = Normal (VStr uid).
Proof.
  destruct (getPaprClient_present _ Hkey) as [client Hclient].
  destruct (POST_passes _ _ _ _ _ _ _ _ Hcaller Hjson Hcontent Htruthy Htype
              Hmetadata Hclient Hshape)
    as (props & log & memoryMetadata & Hget & Hrun & -> & _).
  destruct (call_then_settle Create _ [_; _] _ _ _ Hrun eq_refl) as (Hcalls & _).
  eexists _, _, _. split; [exact Hcalls|].
  split; [rewrite get_prop_obj; simpl; reflexivity|].
  split; [rewrite get_prop_obj; simpl; reflexivity|].
  split; [rewrite get_prop_obj; simpl; reflexivity|].
  split; [intros x; rewrite Hget, get_prop_obj by reflexivity; now intros [= <-]|].
  split; [intros x; rewrite Hget, get_prop_obj by reflexivity; now intros [= <-]|].
  split; [intros x; rewrite Hget, get_prop_obj by reflexivity; now intros [= <-]|].
  split; [rewrite get_prop_obj; simpl; reflexivity|].
  rewrite get_prop_VObj. now rewrite lookup_insert_eq.
Qed.

(** X12. An accepted Create passes the client's [sourceUrl],
    [conversationId], [hierarchical_structures] and [workspace_id]
    unchanged, and keeps every key of a client-supplied [customMetadata]
    object but the two it writes itself, [api_source] and [app_user_id]. *)
Theorem create_passes_through :
  ∃ params memoryMetadata customMetadata,
    sdk_calls (trace (POST w request)) = [MemoryAdd params]
    ∧ get_prop params "metadata" = Normal memoryMetadata
    ∧ (∀ k, In k ["sourceUrl"; "conversationId"; "hierarchical_structures"; "workspace_id"] →
            get_prop memoryMetadata k = get_prop (default_to (obj []) metadata) k)
    ∧ get_prop memoryMetadata "customMetadata" = Normal customMetadata
    ∧ (∀ supplied : gmap string value,
         get_prop (default_to (obj []) metadata) "customMetadata" = Normal (VObj supplied) →
         ∀ k, k ≠ "api_source" → k ≠ "app_user_id" →
              get_prop customMetadata k = Normal (default VUndefined (supplied !! k))).
Proof.
  destruct (getPaprClient_present _ Hkey) as [client Hclient].
  destruct (POST_passes _ _ _ _ _ _ _ _ Hcaller Hjson Hcontent Htruthy Htype
              Hmetadata Hclient Hshape)
    as (props & log & memoryMetadata & Hget & Hrun & -> & _).
  destruct (call_then_settle Create _ [_; _] _ _ _ Hrun eq_refl) as (Hcalls & _).
  eexists _, _, _. split; [exact Hcalls|].
  split; [rewrite get_prop_obj; simpl; reflexivity|].
  split; [intros k [<-|[<-|[<-|[<-|[]]]]];
          rewrite get_prop_obj, Hget by reflexivity; reflexivity|].
  split; [rewrite get_prop_obj; simpl; reflexivity|].
  intros supplied. rewrite Hget by reflexivity. intros [= ->] k Hsource Huser.
  simpl. rewrite get_prop_VObj, !lookup_insert_ne by congruence. reflexivity.
Qed.

(** X13. The metadata an accepted Create passes has the eleven properties
    the handler writes and no other: whatever else the client put at the
    top level of [metadata] does not reach the service. *)
Theorem create_drops_unknown_fields :
  ∃ params memoryMetadata,
    sdk_calls (trace (POST w request)) = [MemoryAdd params]
    ∧ get_prop params "metadata" = Normal memoryMetadata
    ∧ ∀ k, ¬ In k metadata_fields → get_prop memoryMetadata k = Normal VUndefined.
Proof.
  destruct (getPaprClient_present _ Hkey) as [client Hclient].
  destruct (POST_passes _ _ _ _ _ _ _ _ Hcaller Hjson Hcontent Htruthy Htype
              Hmetadata Hclient Hshape)
    as (props & log & memoryMetadata & Hget & Hrun & -> & _).
  destruct (call_then_settle Create _ [_; _] _ _ _ Hrun eq_refl) as (Hcalls & _).
  eexists _, _. split; [exact Hcalls|].
  split; [rewrite get_prop_obj; simpl; reflexivity|].
  intros k Hunknown.
  rewrite get_prop_obj, assoc_not_in; [reflexivity | exact Hunknown].
Qed.

(** X14. An accepted Create logs one line, after the client is constructed
    and right before the SDK call. Its payload has no [content] property:
    of a string content it holds the length only, counted in UTF-16 code
    units as [content.length] counts it, beside [type] and a [metadata]
    summary without [user_id] and [external_user_id]. *)
Theorem create_logs_summary :
  ∃ client log params post summary,
    trace (POST w request)
      = (EvNewPapr client
           :: EvConsoleLog "[Memory API] Adding memory:" log
           :: EvSdk client (MemoryAdd params) :: post)%list
    ∧ Forall (λ ev, match ev with EvConsoleLog _ _ => False | _ => True end) post
    ∧ get_prop log "content" = Normal VUndefined
    ∧ (∀ s, content = VStr s →
            get_prop log "contentLength" = Normal (VNum (Z.of_nat (utf16_length s))))
    ∧ get_prop log "metadata" = Normal summary
    ∧ get_prop summary "user_id" = Normal VUndefined
    ∧ get_prop summary "external_user_id" = Normal VUndefined.
Proof.
  destruct (getPaprClient_present _ Hkey) as [client Hclient].
  destruct (POST_passes _ _ _ _ _ _ _ _ Hcaller Hjson Hcontent Htruthy Htype
              Hmetadata Hclient Hshape)
    as (props & log & memoryMetadata & Hget & Hrun & -> & Hlog).
  destruct (get_prop_truthy _ "length" Htruthy) as [contentLength HcontentLength].
  rewrite (Hlog _ HcontentLength) in *. rewrite Hrun.
  match goal with
  | |- context [settle Create ?c] =>
      destruct (settle_cases Create c) as [(response & data & _ & _ & ->)|(e & ->)]
  end;
    eexists _, _, _, _, _; (split; [reflexivity|]);
    (split; [repeat constructor|]);
    (split; [rewrite get_prop_obj; simpl; reflexivity|]);
    (split; [intros s ->; rewrite get_prop_obj; simpl;
             revert HcontentLength; now intros [= <-]|]);
    (split; [rewrite get_prop_obj; simpl; reflexivity|]);
    split; rewrite get_prop_obj; reflexivity.
Qed.
End Accepted.

Lemma create_fills_defaults_witness :
  ∃ params memoryMetadata,
    sdk_calls (trace (POST Sample.world_ok Sample.request_create)) = [MemoryAdd params]
    ∧ get_prop params "type" = Normal (VStr "text")
    ∧ get_prop params "metadata" = Normal memoryMetadata
    ∧ get_prop memoryMetadata "sourceType" = Normal (VStr "PaprChat")
    ∧ get_prop memoryMetadata "createdAt" = Normal (VStr "2025-06-01T12:00:00.000Z").
Proof.
  destruct (create_fills_defaults
              Sample.world_ok Sample.request_create "user-1"
              Sample.create_body (VStr "hello") VUndefined Sample.spoofed_metadata
              eq_refl eq_refl eq_refl eq_refl eq_refl eq_refl eq_refl eq_refl)
    as (params & memoryMetadata & customMetadata
        & Hcalls & _ & Htype & Hpassed & Hsource & Hcreated & _).
  exists params, memoryMetadata.
  split; [exact Hcalls|]. split; [exact Htype|]. split; [exact Hpassed|].
  split; [apply (Hsource VUndefined) | apply (Hcreated VUndefined)]; reflexivity.
Defined.

Lemma create_passes_through_witness :
  ∃ params memoryMetadata customMetadata,
    sdk_calls (trace (POST Sample.world_ok MoreSamples.request_create_tagged))
      = [MemoryAdd params]
    ∧ get_prop params "metadata" = Normal memoryMetadata
    ∧ get_prop memoryMetadata "sourceUrl" = Normal (VStr "https://notes.example.org/42")
    ∧ get_prop memoryMetadata "customMetadata" = Normal customMetadata
    ∧ get_prop customMetadata "project" = Normal (VStr "apollo").
Proof.
  destruct (create_passes_through
              Sample.world_ok MoreSamples.request_create_tagged "user-1"
              MoreSamples.tagged_body (VStr "hello") (VStr "note")
              MoreSamples.tagged_metadata
              eq_refl eq_refl eq_refl eq_refl eq_refl eq_refl eq_refl eq_refl)
    as (params & memoryMetadata & customMetadata
        & Hcalls & Hpassed & Hthrough & Hcustom & Hkept).
  exists params, memoryMetadata, customMetadata.
  split; [exact Hcalls|]. split; [exact Hpassed|].
  split; [rewrite (Hthrough "sourceUrl"); [reflexivity | simpl; auto]|].
  split; [exact Hcustom|].
  rewrite (Hkept {[ "project" := VStr "apollo"; "api_source" := VStr "spoofed" ]}
             eq_refl "project") by discriminate.
  reflexivity.
Defined.

Lemma create_drops_unknown_fields_witness :
  get_prop MoreSamples.tagged_metadata "role" = Normal (VStr "admin")
  ∧ ∃ params memoryMetadata,
      sdk_calls (trace (POST Sample.world_ok MoreSamples.request_create_tagged))
        = [MemoryAdd params]
      ∧ get_prop params "metadata" = Normal memoryMetadata
      ∧ get_prop memoryMetadata "role" = Normal VUndefined.
Proof.
  split; [reflexivity|].
  destruct (create_drops_unknown_fields
              Sample.world_ok MoreSamples.request_create_tagged "user-1"
              MoreSamples.tagged_body (VStr "hello") (VStr "note")
              MoreSamples.tagged_metadata
              eq_refl eq_refl eq_refl eq_refl eq_refl eq_refl eq_refl eq_refl)
    as (params & memoryMetadata & Hcalls & Hpassed & Hdropped).
  exists params, memoryMetadata.
  split; [exact Hcalls|]. split; [exact Hpassed|].
  apply Hdropped. simpl. intuition discriminate.
Defined.

Lemma create_logs_summary_witness :
  get_prop MoreSamples.accented_body "content" = Normal (VStr "héllo")
  ∧ String.length "héllo" = 6%nat
  ∧ ∃ client log params post,
      trace (POST Sample.world_ok MoreSamples.request_create_accented)
        = (EvNewPapr client
             :: EvConsoleLog "[Memory API] Adding memory:" log
             :: EvSdk client (MemoryAdd params) :: post)%list
      ∧ get_prop log "content" = Normal VUndefined
      ∧ get_prop log "contentLength" = Normal (VNum 5).
Proof.
  split; [reflexivity|]. split; [reflexivity|].
  destruct (create_logs_summary
              Sample.world_ok MoreSamples.request_create_accented "user-1"
              MoreSamples.accented_body (VStr "héllo") VUndefined VUndefined
              eq_refl eq_refl eq_refl eq_refl eq_refl eq_refl eq_refl eq_refl)
    as (client & log & params & post & summary & Htrace & _ & Hnone & Hlength & _).
  exists client, log, params, post.
  split; [exact Htrace|]. split; [exact Hnone|]. exact (Hlength "héllo" eq_refl).
Defined.

(** * Further properties of the image artifact *)

(** ** The copy action *)

(** The click, then everything after it. *)
Lemma run_click b content fuel :
  let src := "data:image/png;base64," +:+ content in
  ImageArtifact.run (S (S (S fuel))) b [ImageArtifact.Click content] =
    (([ ImageArtifact.NewImage; ImageArtifact.SetSrc src; ImageArtifact.SetOnload;
        ImageArtifact.ToastSuccess "Copied image to clipboard!" ]
        ++ fst (ImageArtifact.run (S (S fuel)) b [ImageArtifact.ImageLoad src]))%list,
     snd (ImageArtifact.run (S (S fuel)) b [ImageArtifact.ImageLoad src])).
Proof.
  intros src.
  change (ImageArtifact.run (S (S (S fuel))) b [ImageArtifact.Click content])
    with (let '(rest, pending) :=
            ImageArtifact.run (S (S fuel)) b [ImageArtifact.ImageLoad src] in
          (([ ImageArtifact.NewImage; ImageArtifact.SetSrc src; ImageArtifact.SetOnload;
              ImageArtifact.ToastSuccess "Copied image to clipboard!" ] ++ rest)%list,
           pending)).
  now destruct (ImageArtifact.run (S (S fuel)) b [ImageArtifact.ImageLoad src]).
Qed.

(** X15. One click writes the clipboard at most once: exactly when the
    image loads and [toBlob] hands over a blob, and then with that blob as
    [image/png]; whether the canvas had a 2d context plays no part. *)
Theorem clipboard_written_iff_encoded
    (b : ImageArtifact.browser) (content : string) (fuel : nat) :
  List.filter ImageArtifact.is_clipboard_write
    (fst (ImageArtifact.run (S (S (S fuel))) b [ImageArtifact.Click content]))
  = match ImageArtifact.load_image b ("data:image/png;base64," +:+ content) with
    | Some (width, height) =>
        match ImageArtifact.encode_canvas b width height "image/png" with
        | Some blob => [ImageArtifact.ClipboardWrite "image/png" blob]
        | None => []
        end
    | None => []
    end.
Proof.
  rewrite run_click. cbv zeta.
  destruct (ImageArtifact.load_image b ("data:image/png;base64," +:+ content))
    as [[width height]|] eqn:Hload.
  - rewrite (run_loaded b _ fuel width height Hload). simpl.
    destruct (ImageArtifact.has_2d_context b),
      (ImageArtifact.encode_canvas b width height "image/png"); reflexivity.
  - now rewrite (run_not_loaded b _ (S fuel) Hload).
Qed.

(** X16. One click shows exactly one toast, the success toast, whatever
    the browser does with the image: there is no failure toast. *)
Theorem toast_shown_once
    (b : ImageArtifact.browser) (content : string) (fuel : nat) :
  List.filter ImageArtifact.is_toast
    (fst (ImageArtifact.run (S (S (S fuel))) b [ImageArtifact.Click content]))
  = [ImageArtifact.ToastSuccess "Copied image to clipboard!"].
Proof.
  rewrite run_click. cbv zeta.
  destruct (ImageArtifact.load_image b ("data:image/png;base64," +:+ content))
    as [[width height]|] eqn:Hload.
  - rewrite (run_loaded b _ fuel width height Hload). simpl.
    destruct (ImageArtifact.has_2d_context b),
      (ImageArtifact.encode_canvas b width height "image/png"); reflexivity.
  - now rewrite (run_not_loaded b _ (S fuel) Hload).
Qed.

(** X17. When the image loads but the canvas has no 2d context, nothing is
    drawn, yet the canvas, sized as the image, is still encoded, and a blob
    it yields is still written to the clipboard. *)
Theorem copy_without_context
    (b : ImageArtifact.browser) (content : string) (fuel width height : nat) :
  ImageArtifact.has_2d_context b = false →
  ImageArtifact.load_image b ("data:image/png;base64," +:+ content)
    = Some (width, height) →
  fst (ImageArtifact.run (S (S (S fuel))) b [ImageArtifact.Click content])
  = ([ ImageArtifact.NewImage;
       ImageArtifact.SetSrc ("data:image/png;base64," +:+ content);
       ImageArtifact.SetOnload;
       ImageArtifact.ToastSuccess "Copied image to clipboard!";
       ImageArtifact.CreateCanvas;
       ImageArtifact.SetCanvasWidth width;
       ImageArtifact.SetCanvasHeight height;
       ImageArtifact.GetContext2d;
       ImageArtifact.ToBlob "image/png" ]
      ++ match ImageArtifact.encode_canvas b width height "image/png" with
         | Some blob => [ImageArtifact.ClipboardWrite "image/png" blob]
         | None => []
         end)%list.
Proof.
  intros Hcontext Hload. rewrite run_click. cbv zeta.
  rewrite (run_loaded b _ fuel width height Hload), Hcontext. reflexivity.
Qed.

Lemma copy_without_context_witness :
  List.filter ImageArtifact.is_clipboard_write
    (fst (ImageArtifact.run 3 MoreSamples.contextless_browser
            [ImageArtifact.Click "iVBORw0KGgo="]))
  = [ImageArtifact.ClipboardWrite "image/png" "png-bytes"].
Proof.
  rewrite (copy_without_context MoreSamples.contextless_browser "iVBORw0KGgo=" 0 4 3);
    reflexivity.
Defined.

(** ** The stream handler *)

Lemma stream_snoc parts part artifact :
  stream (parts ++ [part]) artifact
  = ImageArtifactUI.onStreamPart part (stream parts artifact).
Proof. unfold stream. now rewrite fold_left_app. Qed.

Lemma filter_snoc {A} (f : A → bool) l x :
  List.filter f (l ++ [x]) = (List.filter f l ++ if f x then [x] else [])%list.
Proof.
  induction l as [|y l IH]; simpl; [now destruct (f x)|].
  rewrite IH. now destruct (f y).
Qed.

(** X18. After a stream of parts, the artifact's content is the content of
    the last [image-delta] part: each delta replaces the content, none is
    appended; without any delta the content is what it was. *)
Theorem stream_content_is_last_delta
    (parts : list ImageArtifactUI.StreamPart) (artifact : gmap string value) :
  stream parts artifact !! "content"
  = match last (List.filter is_image_delta parts) with
    | Some part => Some (ImageArtifactUI.part_content part)
    | None => artifact !! "content"
    end.
Proof.
  induction parts as [|part parts IH] using rev_ind; [reflexivity|].
  rewrite stream_snoc, filter_snoc. unfold ImageArtifactUI.onStreamPart, is_image_delta.
  destruct (String.eqb (ImageArtifactUI.part_type part) "image-delta").
  - rewrite last_snoc, !lookup_insert_ne by discriminate. apply lookup_insert_eq.
  - now rewrite app_nil_r.
Qed.

(** X19. A stream touches nothing of the artifact but [content],
    [isVisible] and [status]; and it leaves the artifact as it was when no
    part is an [image-delta]. *)
Theorem stream_keeps_other_fields
    (parts : list ImageArtifactUI.StreamPart) (artifact : gmap string value) :
  (∀ k, k ≠ "content" → k ≠ "isVisible" → k ≠ "status" →
        stream parts artifact !! k = artifact !! k)
  ∧ (List.filter is_image_delta parts = [] → stream parts artifact = artifact).
Proof.
  split.
  - intros k Hcontent Hvisible Hstatus.
    induction parts as [|part parts IH] using rev_ind; [reflexivity|].
    rewrite stream_snoc. unfold ImageArtifactUI.onStreamPart.
    destruct (String.eqb (ImageArtifactUI.part_type part) "image-delta");
      [now rewrite !lookup_insert_ne by congruence | exact IH].
  - induction parts as [|part parts IH] using rev_ind; [reflexivity|].
    rewrite filter_snoc, stream_snoc.
    unfold ImageArtifactUI.onStreamPart, is_image_delta.
    destruct (String.eqb (ImageArtifactUI.part_type part) "image-delta").
    + intros Hnone. now apply app_eq_nil in Hnone as [_ Hnone].
    + rewrite app_nil_r. exact IH.
Qed.

Lemma stream_keeps_other_fields_witness :
  stream [MoreSamples.delta "AAAA"; MoreSamples.finish; MoreSamples.delta "BBBB"]
    MoreSamples.artifact0 !! "title" = Some (VStr "Sunset")
  ∧ stream [MoreSamples.finish] MoreSamples.artifact0 = MoreSamples.artifact0.
Proof.
  destruct (stream_keeps_other_fields
              [MoreSamples.delta "AAAA"; MoreSamples.finish; MoreSamples.delta "BBBB"]
              MoreSamples.artifact0) as [Hkept _].
  destruct (stream_keeps_other_fields [MoreSamples.finish] MoreSamples.artifact0)
    as [_ Hsame].
  split.
  - rewrite (Hkept "title") by discriminate. reflexivity.
  - apply Hsame. reflexivity.
Defined.

(** X20. Once a stream has delivered an [image-delta], the artifact is
    visible and its status is ["streaming"], whatever parts follow. *)
Theorem stream_shows_artifact
    (parts : list ImageArtifactUI.StreamPart) (artifact : gmap string value) :
  List.filter is_image_delta parts ≠ [] →
  stream parts artifact !! "isVisible" = Some (VBool true)
  ∧ stream parts artifact !! "status" = Some (VStr "streaming").
Proof.
  induction parts as [|part parts IH] using rev_ind; [now intros []|].
  rewrite filter_snoc, stream_snoc.
  unfold ImageArtifactUI.onStreamPart, is_image_delta.
  destruct (String.eqb (ImageArtifactUI.part_type part) "image-delta").
  - intros _. split.
    + rewrite lookup_insert_ne by discriminate. apply lookup_insert_eq.
    + apply lookup_insert_eq.
  - rewrite app_nil_r. exact IH.
Qed.

Lemma stream_shows_artifact_witness :
  stream [MoreSamples.delta "AAAA"; MoreSamples.finish] MoreSamples.artifact0 !! "status"
  = Some (VStr "streaming").
Proof.
  apply (stream_shows_artifact
           [MoreSamples.delta "AAAA"; MoreSamples.finish] MoreSamples.artifact0).
  discriminate.
Defined.

(** ** The editor wrapper *)

(** X21. [ImageEditorWrapper] never hands [ImageEditor] an [undefined] or
    [null] content: a truthy content goes through as it is, any other
    becomes the empty string; every other prop is forwarded unchanged. *)
Theorem wrapper_content_is_safe (props : gmap string value) :
  let given := default VUndefined (props !! "content") in
  ∃ content,
    ImageArtifactUI.ImageEditorWrapper props !! "content" = Some content
    ∧ content ≠ VUndefined ∧ content ≠ VNull
    ∧ (truthy given = true → content = given)
    ∧ (truthy given = false → content = VStr "")
    ∧ ∀ k, k ≠ "content" → ImageArtifactUI.ImageEditorWrapper props !! k = props !! k.
Proof.
  intros given. unfold ImageArtifactUI.ImageEditorWrapper. fold given.
  exists (or_else given (VStr "")). unfold or_else.
  split; [apply lookup_insert_eq|].
  destruct (truthy given) eqn:Htruthy.
  - repeat split; try (intros ->; discriminate Htruthy); try discriminate.
    intros k Hk. now rewrite lookup_insert_ne.
  - repeat split; try discriminate.
    intros k Hk. now rewrite lookup_insert_ne.
Qed.

Lemma wrapper_content_is_safe_witness :
  ImageArtifactUI.ImageEditorWrapper {[ "content" := VNull; "title" := VStr "Sunset" ]}
    !! "content" = Some (VStr "")
  ∧ ImageArtifactUI.ImageEditorWrapper {[ "content" := VNull; "title" := VStr "Sunset" ]}
      !! "title" = Some (VStr "Sunset").
Proof.
  destruct (wrapper_content_is_safe {[ "content" := VNull; "title" := VStr "Sunset" ]})
    as (content & Hcontent & _ & _ & _ & Hempty & Hkept).
  split.
  - rewrite Hcontent, (Hempty eq_refl). reflexivity.
  - rewrite (Hkept "title") by discriminate. reflexivity.
Defined.
